(** * Token search indexing and query compilation (server/src/fhir/lookups/token)

    A shallow embedding of the [TokenTable] lookup: the extraction of token
    rows from a resource ([getTokens] and the [build*Token] helpers), their
    persistence ([indexResource]) and the compilation of one search filter
    into an SQL expression tree ([buildWhere] and its helpers).

    Conventions of the embedding:
    - a JavaScript [string] is a [string] of 8-bit characters; [string | undefined]
      is [option string], and JavaScript truthiness of such a value is [truthy];
    - the mutable [result: Token[]] array that the builders push to is passed in
      and returned;
    - the database behind the [PoolClient] is an explicit [Database] value
      threaded through [indexResource];
    - the logger written to by [logExpensiveQuery] is the list of records that
      the compiling functions return next to their result;
    - a thrown [OperationOutcomeError] is the left injection of a sum. *)

From Stdlib Require Import String Ascii List Bool Arith.
From Stdlib Require Import Lia.
Import ListNotations.
Open Scope string_scope.
Open Scope list_scope.

Set Implicit Arguments.
Set Warnings "-register-all".

(** ** JavaScript string primitives *)

Module Js.

(** [x] used as a condition, for [x : string | undefined]: neither
    [undefined] nor the empty string. *)
Definition truthy (x : option string) : bool :=
  match x with
  | Some (String _ _) => true
  | _ => false
  end.

(** [x === y] on [string | undefined]. *)
Definition strictEq (x y : option string) : bool :=
  match x, y with
  | Some a, Some b => String.eqb a b
  | None, None => true
  | _, _ => false
  end.

(** [x || undefined]. *)
Definition orUndefined (x : option string) : option string :=
  if truthy x then x else None.

Definition isUpper (c : ascii) : bool :=
  let n := nat_of_ascii c in ((65 <=? n) && (n <=? 90))%nat.

Definition lowerChar (c : ascii) : ascii :=
  if isUpper c then ascii_of_nat (nat_of_ascii c + 32) else c.

(** [s.toLowerCase()] and [s.toLocaleLowerCase()], on the letters A-Z. *)
Fixpoint toLowerCase (s : string) : string :=
  match s with
  | EmptyString => EmptyString
  | String c r => String (lowerChar c) (toLowerCase r)
  end.

Definition toLocaleLowerCase : string -> string := toLowerCase.

(** White space removed by [trim]: tab, line feed, vertical tab, form feed,
    carriage return and space. *)
Definition isSpace (c : ascii) : bool :=
  let n := nat_of_ascii c in (((9 <=? n) && (n <=? 13)) || (n =? 32))%nat.

Fixpoint trimStart (s : string) : string :=
  match s with
  | EmptyString => EmptyString
  | String c r => if isSpace c then trimStart r else s
  end.

Fixpoint trimEnd (s : string) : string :=
  match s with
  | EmptyString => EmptyString
  | String c r =>
      match trimEnd r with
      | EmptyString => if isSpace c then EmptyString else String c EmptyString
      | r' => String c r'
      end
  end.

(** [s.trim()]. *)
Definition trim (s : string) : string := trimEnd (trimStart s).

(** [s.endsWith(suffix)]. *)
Definition endsWith (s suffix : string) : bool :=
  (String.length suffix <=? String.length s)%nat
  && String.eqb
       (substring (String.length s - String.length suffix) (String.length suffix) s)
       suffix.

End Js.

(** ** FHIR data types read by the extractor *)

Module Identifier.
Record t := mk { system : option string; value : option string }.
End Identifier.

Module Coding.
Record t := mk { system : option string; code : option string; display : option string }.
End Coding.

Module CodeableConcept.
Record t := mk { text : option string; coding : option (list Coding.t) }.
End CodeableConcept.

Module ContactPoint.
Record t := mk { system : option string; value : option string }.
End ContactPoint.

(** [PropertyType], the names of the element types the source tests for. *)
Module PropertyType.
Definition Identifier := "Identifier".
Definition CodeableConcept := "CodeableConcept".
Definition Coding := "Coding".
Definition ContactPoint := "ContactPoint".
End PropertyType.

(** [TypedValue]: a value found by a path expression, tagged with its type.
    The four structured shapes carry their object ([undefined] allowed, as in
    the builders' signatures); every other type carries [value?.toString()]. *)
Inductive TypedValue :=
| TVIdentifier (value : option Identifier.t)
| TVCodeableConcept (value : option CodeableConcept.t)
| TVCoding (value : option Coding.t)
| TVContactPoint (value : option ContactPoint.t)
| TVOther (type : string) (value : option string).

(** [SearchParameter]: the fields the token table reads.  [code] and [type]
    are mandatory elements of the resource. *)
Module SearchParameter.
Record t := mk {
  id : option string;
  code : string;
  type : string;
  expression : string
}.
End SearchParameter.

(** [SearchParameterDetails] and the element definitions it lists. *)
Module ElementDefinitionType.
Record t := mk { code : option string }.
End ElementDefinitionType.

Module ElementDefinition.
Record t := mk { type : option (list ElementDefinitionType.t) }.
End ElementDefinition.

Module SearchParameterDetails.
Record t := mk { elementDefinitions : option (list ElementDefinition.t) }.
End SearchParameterDetails.

(** [Resource]: the type tag, the id, and the content that path expressions
    are evaluated on, as a list of properties with their typed values. *)
Module Resource.
Record t := mk {
  resourceType : string;
  id : string;
  properties : list (string * list TypedValue)
}.
End Resource.

(** [interface Token]. *)
Module Token.
Record t := mk {
  code : string;
  system : option string;
  value : option string
}.
End Token.

(** ** Collaborators imported from the core package

    The search parameter registry, the path expression evaluator and the
    derivation of the [:identifier] variant of a reference parameter are
    imported by the source; the token table is parametric in them. *)
Class Registry := {
  getSearchParameters : string -> option (list SearchParameter.t);
  getSearchParameterDetails : string -> SearchParameter.t -> SearchParameterDetails.t;
  evalFhirPathTyped : string -> Resource.t -> list TypedValue;
  deriveIdentifierSearchParameter : SearchParameter.t -> SearchParameter.t
}.

(** ** Classification of a search parameter *)

Inductive TokenIndexType := CASE_SENSITIVE | CASE_INSENSITIVE.

(** [type.code === name]. *)
Definition typeCodeIs (name : string) (ty : ElementDefinitionType.t) : bool :=
  Js.strictEq (ElementDefinitionType.code ty) (Some name).

(** One pair of the nested [for] loops of [getTokenIndexType]: some type of
    some element definition satisfies [p]. *)
Definition anyElementType (p : ElementDefinitionType.t -> bool)
    (defs : list ElementDefinition.t) : bool :=
  existsb
    (fun elementDefinition =>
       existsb p
         (match ElementDefinition.type elementDefinition with
          | Some types => types
          | None => []
          end))
    defs.

Section WithRegistry.

Context `{Registry}.

Definition getTokenIndexType (searchParam : SearchParameter.t) (resourceType : string)
  : option TokenIndexType :=
  if negb (String.eqb (SearchParameter.type searchParam) "token") then None
  else if Js.endsWith (SearchParameter.code searchParam) ":identifier" then Some CASE_SENSITIVE
  else
    let details := getSearchParameterDetails resourceType searchParam in
    match SearchParameterDetails.elementDefinitions details with
    | None => None
    | Some [] => None
    | Some defs =>
        if anyElementType (typeCodeIs PropertyType.ContactPoint) defs
        then Some CASE_INSENSITIVE
        else if anyElementType
                  (fun ty =>
                     typeCodeIs PropertyType.Identifier ty
                     || typeCodeIs PropertyType.CodeableConcept ty
                     || typeCodeIs PropertyType.Coding ty)
                  defs
        then Some CASE_SENSITIVE
        else None
    end.

Definition isCaseSensitiveSearchParameter (param : SearchParameter.t) (resourceType : string)
  : bool :=
  match getTokenIndexType param resourceType with
  | Some CASE_SENSITIVE => true
  | _ => false
  end.

(** [TokenTable.isIndexed]. *)
Definition isIndexed (searchParam : SearchParameter.t) (resourceType : string) : bool :=
  match getTokenIndexType searchParam resourceType with
  | Some _ => true
  | None => false
  end.

End WithRegistry.

(** ** Token extraction *)

(** The test of [result.some(...)] in [buildSimpleToken]. *)
Definition sameToken (searchParam : SearchParameter.t) (system value : option string)
    (token : Token.t) : bool :=
  String.eqb (Token.code token) (SearchParameter.code searchParam)
  && Js.strictEq (Token.system token) system
  && Js.strictEq (Token.value token) value.

Definition buildSimpleToken (result : list Token.t) (searchParam : SearchParameter.t)
    (caseSensitive : bool) (system value : option string) : list Token.t :=
  if (Js.truthy system || Js.truthy value)
     && negb (existsb (sameToken searchParam system value) result)
  then
    result ++
      [ Token.mk (SearchParameter.code searchParam) system
          (if Js.truthy value && negb caseSensitive
           then option_map Js.toLocaleLowerCase value
           else value) ]
  else result.

Definition buildIdentifierToken (result : list Token.t) (searchParam : SearchParameter.t)
    (caseSensitive : bool) (identifier : option Identifier.t) : list Token.t :=
  buildSimpleToken result searchParam caseSensitive
    (match identifier with Some i => Identifier.system i | None => None end)
    (match identifier with Some i => Identifier.value i | None => None end).

Definition buildCodingToken (result : list Token.t) (searchParam : SearchParameter.t)
    (caseSensitive : bool) (coding : option Coding.t) : list Token.t :=
  match coding with
  | Some coding =>
      let result :=
        if Js.truthy (Coding.display coding)
        then buildSimpleToken result searchParam caseSensitive (Some "text") (Coding.display coding)
        else result in
      buildSimpleToken result searchParam caseSensitive (Coding.system coding) (Coding.code coding)
  | None => result
  end.

Definition buildCodeableConceptToken (result : list Token.t) (searchParam : SearchParameter.t)
    (caseSensitive : bool) (codeableConcept : option CodeableConcept.t) : list Token.t :=
  match codeableConcept with
  | Some cc =>
      let result :=
        if Js.truthy (CodeableConcept.text cc)
        then buildSimpleToken result searchParam caseSensitive (Some "text") (CodeableConcept.text cc)
        else result in
      match CodeableConcept.coding cc with
      | Some codings =>
          fold_left
            (fun result coding => buildCodingToken result searchParam caseSensitive (Some coding))
            codings result
      | None => result
      end
  | None => result
  end.

Definition buildContactPointToken (result : list Token.t) (searchParam : SearchParameter.t)
    (caseSensitive : bool) (contactPoint : option ContactPoint.t) : list Token.t :=
  let system := match contactPoint with Some cp => ContactPoint.system cp | None => None end in
  let value := match contactPoint with Some cp => ContactPoint.value cp | None => None end in
  buildSimpleToken result searchParam caseSensitive system
    (if Js.truthy value then option_map Js.toLocaleLowerCase value else value).

Section Extraction.

Context `{Registry}.

Definition buildTokens (result : list Token.t) (searchParam : SearchParameter.t)
    (resource : Resource.t) (typedValue : TypedValue) : list Token.t :=
  let caseSensitive :=
    isCaseSensitiveSearchParameter searchParam (Resource.resourceType resource) in
  match typedValue with
  | TVIdentifier value => buildIdentifierToken result searchParam caseSensitive value
  | TVCodeableConcept value => buildCodeableConceptToken result searchParam caseSensitive value
  | TVCoding value => buildCodingToken result searchParam caseSensitive value
  | TVContactPoint value => buildContactPointToken result searchParam caseSensitive value
  | TVOther _ value => buildSimpleToken result searchParam caseSensitive None value
  end.

Definition buildTokensForSearchParameter (result : list Token.t) (resource : Resource.t)
    (searchParam : SearchParameter.t) : list Token.t :=
  fold_left
    (fun result typedValue => buildTokens result searchParam resource typedValue)
    (evalFhirPathTyped (SearchParameter.expression searchParam) resource)
    result.

Definition getTokens (resource : Resource.t) : list Token.t :=
  match getSearchParameters (Resource.resourceType resource) with
  | Some searchParams =>
      fold_left
        (fun result searchParam =>
           let result :=
             match getTokenIndexType searchParam (Resource.resourceType resource) with
             | Some _ => buildTokensForSearchParameter result resource searchParam
             | None => result
             end in
           if String.eqb (SearchParameter.type searchParam) "reference"
           then buildTokensForSearchParameter result resource
                  (deriveIdentifierSearchParameter searchParam)
           else result)
        searchParams []
  | None => []
  end.

End Extraction.

(** ** The token tables *)

(** A stored value: [NULL], a [text], or a [text[]]. *)
Inductive SqlValue :=
| SqlNull
| SqlText (s : string)
| SqlTextArray (items : list string).

(** A row gives its columns by name; a database is its rows, each with the
    name of its table, in storage order. *)
Definition Row := list (string * SqlValue).
Definition Database := list (string * Row).

Fixpoint columnOf (row : Row) (name : string) : SqlValue :=
  match row with
  | [] => SqlNull
  | (n, v) :: rest => if String.eqb n name then v else columnOf rest name
  end.

Definition rowsOf (db : Database) (table : string) : list Row :=
  map snd (List.filter (fun entry => String.eqb (fst entry) table) db).

Definition sqlOfOption (x : option string) : SqlValue :=
  match x with
  | Some s => SqlText s
  | None => SqlNull
  end.

Definition isText (v : SqlValue) (s : string) : bool :=
  match v with
  | SqlText t => String.eqb t s
  | _ => false
  end.

Definition getTableName (resourceType : string) : string :=
  resourceType ++ "_Token".

(** The objects that [indexResource] hands to [insertValuesForResource]. *)
Module TokenValue.
Record t := mk {
  resourceId : string;
  code : string;
  system : option string;
  value : option string
}.
End TokenValue.

(** The row inserted for one such object: one column per key. *)
Definition rowOfValue (v : TokenValue.t) : Row :=
  [ ("resourceId", SqlText (TokenValue.resourceId v));
    ("code", SqlText (TokenValue.code v));
    ("system", sqlOfOption (TokenValue.system v));
    ("value", sqlOfOption (TokenValue.value v)) ].

(** Statements run on the database client: a state monad over the database. *)
Definition Client (A : Type) : Type := Database -> A * Database.

Definition ret {A} (a : A) : Client A := fun db => (a, db).

Definition bind {A B} (c : Client A) (k : A -> Client B) : Client B :=
  fun db => let (a, db') := c db in k a db'.

Notation "x <- c ;; k" := (bind c (fun x => k))
  (at level 61, c at next level, right associativity).
Notation "c ;;; k" := (bind c (fun _ => k))
  (at level 61, right associativity).

(** The database after running [statement] on the database [db]. *)
Definition execute {A} (statement : Client A) (db : Database) : Database :=
  snd (statement db).

(** Modelled from the spec: [deleteValuesForResource], inherited from the
    base class [LookupTable] of the [lookuptable] module: delete every
    existing row for the resource's id in this resource type's token table. *)
Definition deleteValuesForResource (resource : Resource.t) : Client unit :=
  fun db =>
    (tt,
     List.filter
       (fun entry =>
          negb (String.eqb (fst entry) (getTableName (Resource.resourceType resource))
                && isText (columnOf (snd entry) "resourceId") (Resource.id resource)))
       db).

(** Modelled from the spec: [insertValuesForResource], inherited from the
    base class [LookupTable]: bulk-insert the rows into the resource type's
    token table. *)
Definition insertValuesForResource (resourceType : string) (values : list TokenValue.t)
  : Client unit :=
  fun db => (tt, db ++ map (fun v => (getTableName resourceType, rowOfValue v)) values).

Section Indexing.

Context `{Registry}.

(** The [values] computed by [indexResource]. *)
Definition tokenValues (resource : Resource.t) : list TokenValue.t :=
  let tokens := getTokens resource in
  let resourceId := Resource.id resource in
  map
    (fun token =>
       TokenValue.mk resourceId (Token.code token)
         (Js.orUndefined (option_map Js.trim (Token.system token)))
         (Js.orUndefined (option_map Js.trim (Token.value token))))
    tokens.

Definition indexResource (resource : Resource.t) (create : bool) : Client unit :=
  (if negb create then deleteValuesForResource resource else ret tt) ;;;
  let resourceType := Resource.resourceType resource in
  insertValuesForResource resourceType (tokenValues resource).

End Indexing.

(** ** The SQL expression tree *)

Module Operator.
(** The operators of a [Condition] that the token table uses:
    ['='], ['LIKE'], ['IN'], ['TSVECTOR_SIMPLE'] and ['IN_SUBQUERY']. *)
Inductive t := EQ | LIKE | IN | TSVECTOR_SIMPLE | IN_SUBQUERY.
End Operator.

Record Column := mkColumn { tableName : string; columnName : string }.

(** Modelled from the spec: the classes that the source imports from the
    [sql] module: Column, Condition, Conjunction, Disjunction, Negation,
    FunctionCall and Subquery.  A [SelectQuery] carries its table,
    its columns, the expressions of its predicate and its limit.  The
    parameter of a condition is a column, a string, [null], a list of strings
    or a query. *)
Inductive Expression :=
| Condition (column : Column) (operator : Operator.t) (parameter : ConditionParameter)
    (parameterType : option string)
| Conjunction (expressions : list Expression)
| Disjunction (expressions : list Expression)
| Negation (expression : Expression)
| SqlFunction (name : string) (args : list Expression)
| SelectQuery (table : string) (columns : list string) (predicate : list Expression)
    (limit : option nat)
with ConditionParameter :=
| PColumn (c : Column)
| PText (s : string)
| PNull
| PTextList (items : list string)
| PQuery (query : Expression).

(** ** Search filters *)

Module FhirOperator.
(** The members of the core package's [Operator] that the token table names;
    [OTHER] stands for any further member. *)
Inductive t :=
| EQUALS | NOT_EQUALS | CONTAINS | TEXT | NOT | IN | NOT_IN
| MISSING | PRESENT | IDENTIFIER
| OTHER (name : string).
End FhirOperator.

Module Filter.
Record t := mk {
  code : string;
  operator : FhirOperator.t;
  value : string
}.
End Filter.

Record FilterContext := mkFilterContext {
  searchParam : SearchParameter.t;
  lookupTableName : string;
  caseSensitive : bool;
  filter : Filter.t
}.

(** What [logExpensiveQuery] hands to the logger's [warn]. *)
Record LogRecord := mkLogRecord {
  logMessage : string;
  logOperator : FhirOperator.t;
  logSearchParameterId : option string;
  logSearchParameterCode : string;
  logFilterValue : string;
  logValue : string
}.

(** [OperationOutcomeError(badRequest(message))]. *)
Inductive OperationOutcomeError :=
| badRequest (message : string).

(** ** Splitting the raw filter value *)

(** Modelled from the spec: the scan behind [splitSearchOnComma] and
    [splitN], which the source imports from the core package: split on
    unescaped occurrences of the delimiter.  A backslash
    escapes the character after it; every character is kept as it is; at most
    [splits] delimiters split, and the rest of the string is the last part. *)
Fixpoint splitUnescaped (delim : ascii) (splits : nat) (current : string) (escaped : bool)
    (input : string) : list string :=
  match input with
  | EmptyString => [current]
  | String c rest =>
      if escaped then
        splitUnescaped delim splits (current ++ String c EmptyString) false rest
      else if Ascii.eqb c "\" then
        splitUnescaped delim splits (current ++ String c EmptyString) true rest
      else if Ascii.eqb c delim then
        match splits with
        | S splits' => current :: splitUnescaped delim splits' EmptyString false rest
        | O => splitUnescaped delim splits (current ++ String c EmptyString) false rest
        end
      else
        splitUnescaped delim splits (current ++ String c EmptyString) false rest
  end.

(** Modelled from the spec: [splitSearchOnComma]: split the raw value on
    unescaped commas into alternative options. *)
Definition splitSearchOnComma (input : string) : list string :=
  splitUnescaped "," (String.length input) EmptyString false input.

(** Modelled from the spec: [splitN(str, delim, n)]: split on the first
    unescaped delimiters into at most [n] parts. *)
Definition splitN (str : string) (delim : ascii) (n : nat) : list string :=
  splitUnescaped delim (n - 1) EmptyString false str.

(** ** Compiling a filter *)

(** The functions of the [sql] module and of the database that compilation
    and evaluation rely on: the escaping of a LIKE pattern, and the matching
    done by LIKE and by the simple text search. *)
Class SqlBackend := {
  escapeLikeString : string -> string;
  likeMatch : string -> string -> bool;
  tsvectorSimpleMatch : string -> string -> bool
}.

Definition shouldCompareTokenValue (operator : FhirOperator.t) : bool :=
  match operator with
  | FhirOperator.MISSING
  | FhirOperator.PRESENT
  | FhirOperator.IN
  | FhirOperator.NOT_IN
  | FhirOperator.IDENTIFIER => false
  | _ => true
  end.

Definition missingMessage : string :=
  "Search filter ':missing' must have a value of 'true' or 'false'".

Definition shouldTokenRowExist (filter : Filter.t) : OperationOutcomeError + bool :=
  if shouldCompareTokenValue (Filter.operator filter) then
    match Filter.operator filter with
    | FhirOperator.NOT | FhirOperator.NOT_EQUALS => inr false
    | _ => inr true
    end
  else
    match Filter.operator filter with
    | FhirOperator.MISSING =>
        let v := Js.toLowerCase (Filter.value filter) in
        if String.eqb v "true" then inr false
        else if String.eqb v "false" then inr true
        else inl (badRequest missingMessage)
    | FhirOperator.PRESENT =>
        let v := Js.toLowerCase (Filter.value filter) in
        if String.eqb v "true" then inr true
        else if String.eqb v "false" then inr false
        else inl (badRequest missingMessage)
    | _ => inr true
    end.

Definition logExpensiveQuery (context : FilterContext) (value : string) : list LogRecord :=
  [ mkLogRecord "Potentially expensive token lookup query"
      (Filter.operator (filter context))
      (SearchParameter.id (searchParam context))
      (SearchParameter.code (searchParam context))
      (Filter.value (filter context))
      value ].

Definition buildInValueSetCondition (tableName : string) (value : string) : Expression :=
  Condition (mkColumn tableName "system") Operator.IN_SUBQUERY
    (PQuery
       (SelectQuery "ValueSet" ["reference"]
          [Condition (mkColumn "ValueSet" "url") Operator.EQ (PText value) None]
          (Some 1)))
    (Some "TEXT[]").

Section Compilation.

Context `{Registry} `{SqlBackend}.

Definition buildValueCondition (context : FilterContext) (value : string)
  : list LogRecord * Expression :=
  let tableName := lookupTableName context in
  let operator := Filter.operator (filter context) in
  let column := mkColumn tableName "value" in
  let value := Js.trim value in
  match operator with
  | FhirOperator.TEXT =>
      (logExpensiveQuery context value,
       Conjunction
         [ Condition (mkColumn tableName "system") Operator.EQ (PText "text") None;
           Condition column Operator.TSVECTOR_SIMPLE (PText (value ++ ":*")) None ])
  | FhirOperator.CONTAINS =>
      (logExpensiveQuery context value,
       Condition column Operator.LIKE (PText (escapeLikeString value ++ "%")) None)
  | _ =>
      if caseSensitive context then
        ([], Condition column Operator.EQ (PText value) None)
      else
        ([], Condition column Operator.IN (PTextList [value; Js.toLocaleLowerCase value]) None)
  end.

Definition buildWhereCondition (context : FilterContext) (query : string)
  : list LogRecord * option Expression :=
  let operator := Filter.operator (filter context) in
  match splitN query "|" 2 with
  | [part0; part1] =>
      let system :=
        match Js.orUndefined (Some part0) with
        | Some s => PText s
        | None => PNull
        end in
      let value := part1 in
      let systemCondition :=
        Condition (mkColumn (lookupTableName context) "system") Operator.EQ system None in
      if Js.truthy (Some value) then
        let (log, valueCondition) := buildValueCondition context value in
        (log, Some (Conjunction [systemCondition; valueCondition]))
      else ([], Some systemCondition)
  | _ =>
      match operator with
      | FhirOperator.IN =>
          ([], Some (buildInValueSetCondition (lookupTableName context) query))
      | FhirOperator.NOT_IN =>
          ([], Some (Negation (buildInValueSetCondition (lookupTableName context) query)))
      | _ =>
          if shouldCompareTokenValue operator then
            let (log, valueCondition) := buildValueCondition context query in
            (log, Some valueCondition)
          else ([], None)
      end
  end.

(** The loop of [buildWhereExpression]: the log and the [subExpressions]
    after the options. *)
Definition collectSubExpressions (context : FilterContext) (options : list string)
  : list LogRecord * list Expression :=
  fold_left
    (fun acc option =>
       let (log, expression) := buildWhereCondition context option in
       match expression with
       | Some e => (fst acc ++ log, snd acc ++ [e])
       | None => (fst acc ++ log, snd acc)
       end)
    options ([], []).

Definition buildWhereExpression (context : FilterContext)
  : list LogRecord * option Expression :=
  let (log, subExpressions) :=
    collectSubExpressions context (splitSearchOnComma (Filter.value (filter context))) in
  match subExpressions with
  | _ :: _ => (log, Some (Disjunction subExpressions))
  | [] => (log, None)
  end.

(** [TokenTable.buildWhere]; its first argument, the select query being
    built, is not used by the source. *)
Definition buildWhere (resourceType : string) (resourceTableName : string)
    (param : SearchParameter.t) (filter : Filter.t)
  : list LogRecord * (OperationOutcomeError + Expression) :=
  let lookupTableName := getTableName resourceType in
  let conjunction :=
    [ Condition (mkColumn resourceTableName "id") Operator.EQ
        (PColumn (mkColumn lookupTableName "resourceId")) None;
      Condition (mkColumn lookupTableName "code") Operator.EQ (PText (Filter.code filter)) None ] in
  let caseSensitive := isCaseSensitiveSearchParameter param resourceType in
  let (log, whereExpression) :=
    buildWhereExpression (mkFilterContext param lookupTableName caseSensitive filter) in
  let conjunction :=
    match whereExpression with
    | Some e => conjunction ++ [e]
    | None => conjunction
    end in
  let exists_ :=
    SqlFunction "EXISTS" [SelectQuery lookupTableName [] [Conjunction conjunction] None] in
  match shouldTokenRowExist filter with
  | inl error => (log, inl error)
  | inr true => (log, inr exists_)
  | inr false => (log, inr (Negation exists_))
  end.

End Compilation.

(** ** The meaning of an expression on a database

    The expressions are rendered to SQL by the [sql] module and run by the
    database; their meaning here is SQL's: three truth values, comparisons
    with [NULL] unknown, a [WHERE] clause keeping the rows whose predicate is
    true, [EXISTS] true when its query keeps a row. *)

Inductive Truth := TTrue | TFalse | TUnknown.

Definition truthOfBool (b : bool) : Truth := if b then TTrue else TFalse.

Definition isTrue (t : Truth) : bool :=
  match t with
  | TTrue => true
  | _ => false
  end.

Definition truthNot (t : Truth) : Truth :=
  match t with
  | TTrue => TFalse
  | TFalse => TTrue
  | TUnknown => TUnknown
  end.

Definition truthAnd (a b : Truth) : Truth :=
  match a, b with
  | TFalse, _ | _, TFalse => TFalse
  | TTrue, TTrue => TTrue
  | _, _ => TUnknown
  end.

Definition truthOr (a b : Truth) : Truth :=
  match a, b with
  | TTrue, _ | _, TTrue => TTrue
  | TFalse, TFalse => TFalse
  | _, _ => TUnknown
  end.

Definition truthAll (ts : list Truth) : Truth := fold_right truthAnd TTrue ts.
Definition truthAny (ts : list Truth) : Truth := fold_right truthOr TFalse ts.

(** The rows in scope, innermost query first, each under its table's name. *)
Definition Scope := list (string * Row).

Fixpoint lookupColumn (scope : Scope) (c : Column) : SqlValue :=
  match scope with
  | [] => SqlNull
  | (name, row) :: rest =>
      if String.eqb name (tableName c) then columnOf row (columnName c)
      else lookupColumn rest c
  end.

Section Semantics.

Context `{SqlBackend}.

(** One condition, on the value of its column and the value of its parameter:
    [params] is the parameter as a list of texts, [array] as an array. *)
Definition evalCondition (operator : Operator.t) (lhs : SqlValue) (rhs : SqlValue)
    (params : option (list string)) : Truth :=
  match operator, lhs with
  | Operator.EQ, SqlText a =>
      match params, rhs with
      | Some [b], _ => truthOfBool (String.eqb a b)
      | None, SqlText b => truthOfBool (String.eqb a b)
      | _, _ => TUnknown
      end
  | Operator.IN, SqlText a =>
      match params with
      | Some items => truthOfBool (existsb (String.eqb a) items)
      | None => TUnknown
      end
  | Operator.LIKE, SqlText a =>
      match params with
      | Some [pattern] => truthOfBool (likeMatch a pattern)
      | _ => TUnknown
      end
  | Operator.TSVECTOR_SIMPLE, SqlText a =>
      match params with
      | Some [query] => truthOfBool (tsvectorSimpleMatch a query)
      | _ => TUnknown
      end
  | Operator.IN_SUBQUERY, SqlText a =>
      match rhs with
      | SqlTextArray items => truthOfBool (existsb (String.eqb a) items)
      | _ => TUnknown
      end
  | _, _ => TUnknown
  end.

Definition isNull (v : SqlValue) : bool :=
  match v with
  | SqlNull => true
  | _ => false
  end.

Definition limitRows (limit : option nat) (rows : list Row) : list Row :=
  match limit with
  | Some n => firstn n rows
  | None => rows
  end.

(** Modelled from the spec: the renderer of the [sql] module together with
    the database that runs the statement: the truth value of an expression
    for the rows in scope.  A condition compares the value of its column with
    its parameter ([= NULL] is rendered as [IS NULL]); a query as parameter
    yields the first column of the first row it keeps, within its limit. *)
Fixpoint eval (db : Database) (scope : Scope) (e : Expression) {struct e} : Truth :=
  match e with
  | Condition column operator parameter _ =>
      match parameter with
      | PNull =>
          match operator with
          | Operator.EQ => truthOfBool (isNull (lookupColumn scope column))
          | _ => TUnknown
          end
      | PText s => evalCondition operator (lookupColumn scope column) SqlNull (Some [s])
      | PTextList items =>
          evalCondition operator (lookupColumn scope column) SqlNull (Some items)
      | PColumn c =>
          evalCondition operator (lookupColumn scope column) (lookupColumn scope c) None
      | PQuery (SelectQuery table columns predicate limit) =>
          let kept :=
            List.filter
              (fun row => isTrue (truthAll (map (eval db ((table, row) :: scope)) predicate)))
              (rowsOf db table) in
          let result :=
            match limitRows limit kept, columns with
            | row :: _, name :: _ => columnOf row name
            | _, _ => SqlNull
            end in
          evalCondition operator (lookupColumn scope column) result None
      | PQuery _ => TUnknown
      end
  | Conjunction expressions => truthAll (map (eval db scope) expressions)
  | Disjunction expressions => truthAny (map (eval db scope) expressions)
  | Negation expression => truthNot (eval db scope expression)
  | SqlFunction name args =>
      match args with
      | [SelectQuery table _ predicate _] =>
          if String.eqb name "EXISTS" then
            truthOfBool
              (existsb
                 (fun row => isTrue (truthAll (map (eval db ((table, row) :: scope)) predicate)))
                 (rowsOf db table))
          else TUnknown
      | _ => TUnknown
      end
  | SelectQuery _ _ _ _ => TUnknown
  end.

(** The resource selected by a predicate: the row of the resource table in
    scope is the one of the resource, and the predicate is true. *)
Definition selects (db : Database) (resourceTableName : string) (resourceId : string)
    (e : Expression) : bool :=
  isTrue (eval db [(resourceTableName, [("id", SqlText resourceId)])] e).

End Semantics.

(** ** Sample registry and resources

    Search parameters of Patient and Observation as the registry lists them,
    and a path evaluator for expressions of the form [Type.property]. *)

Module Sample.

Definition identifierParam : SearchParameter.t :=
  SearchParameter.mk (Some "Patient-identifier") "identifier" "token" "Patient.identifier".

Definition telecomParam : SearchParameter.t :=
  SearchParameter.mk (Some "Patient-telecom") "telecom" "token" "Patient.telecom".

Definition codeParam : SearchParameter.t :=
  SearchParameter.mk (Some "clinical-code") "code" "token" "Observation.code".

Definition subjectParam : SearchParameter.t :=
  SearchParameter.mk (Some "Observation-subject") "subject" "reference" "Observation.subject".

Definition elementOf (typeName : string) : SearchParameterDetails.t :=
  SearchParameterDetails.mk
    (Some [ElementDefinition.mk (Some [ElementDefinitionType.mk (Some typeName)])]).

Definition details (resourceType : string) (searchParam : SearchParameter.t)
  : SearchParameterDetails.t :=
  let code := SearchParameter.code searchParam in
  if String.eqb code "identifier" then elementOf PropertyType.Identifier
  else if String.eqb code "telecom" then elementOf PropertyType.ContactPoint
  else if String.eqb code "code" then elementOf PropertyType.CodeableConcept
  else SearchParameterDetails.mk None.

Fixpoint property (resourceType expression : string)
    (properties : list (string * list TypedValue)) : list TypedValue :=
  match properties with
  | [] => []
  | (name, values) :: rest =>
      if String.eqb (resourceType ++ "." ++ name) expression then values
      else property resourceType expression rest
  end.

#[local] Instance registry : Registry := {|
  getSearchParameters resourceType :=
    if String.eqb resourceType "Patient" then Some [identifierParam; telecomParam]
    else if String.eqb resourceType "Observation" then Some [codeParam; subjectParam]
    else None;
  getSearchParameterDetails := details;
  evalFhirPathTyped expression resource :=
    property (Resource.resourceType resource) expression (Resource.properties resource);
  deriveIdentifierSearchParameter searchParam :=
    SearchParameter.mk None
      (SearchParameter.code searchParam ++ ":identifier") "token"
      ("(" ++ SearchParameter.expression searchParam ++ ").identifier")
|}.

(** A backend whose LIKE and text search match by prefix. *)
#[local] Instance backend : SqlBackend := {|
  escapeLikeString s := s;
  likeMatch text pattern :=
    String.prefix (substring 0 (String.length pattern - 1) pattern) text;
  tsvectorSimpleMatch text query :=
    String.prefix (substring 0 (String.length query - 2) query) text
|}.

Definition patient (id : string) (identifiers : list Identifier.t) : Resource.t :=
  Resource.mk "Patient" id [("identifier", map (fun i => TVIdentifier (Some i)) identifiers)].

Definition observation (id : string) (code : CodeableConcept.t) : Resource.t :=
  Resource.mk "Observation" id [("code", [TVCodeableConcept (Some code)])].

End Sample.

(** * Rendering of a questionnaire item (react, QuestionnaireItemDisplay)

    [getQuestionnaireItemRendering] reads the rendering extensions of a
    questionnaire item; [QuestionnaireItemDisplay] builds the element to
    render from them. *)

Module Extension.
Record t := mk {
  url : option string;
  valueBoolean : option bool;
  valueString : option string
}.
End Extension.

(** The [_text] companion element of the item's text: only its extensions
    are read. *)
Module TextElement.
Record t := mk { extension : option (list Extension.t) }.
End TextElement.

Module QuestionnaireItem.
Record t := mk {
  linkId : option string;
  text : option string;
  extension : option (list Extension.t);
  _text : option TextElement.t
}.
End QuestionnaireItem.

Definition renderingStyleSensitiveUrl : string :=
  "http://hl7.org/fhir/StructureDefinition/rendering-styleSensitive".
Definition renderingXhtmlUrl : string :=
  "http://hl7.org/fhir/StructureDefinition/rendering-xhtml".
Definition renderingStyleUrl : string :=
  "http://hl7.org/fhir/StructureDefinition/rendering-style".

(** [extensions.find((e) => e.url === url)]. *)
Definition findExtension (url : string) (extensions : list Extension.t) : option Extension.t :=
  find (fun e => Js.strictEq (Extension.url e) (Some url)) extensions.

Module Rendering.
Record t := mk {
  xhtml : option string;
  style : option string;
  styleSensitive : bool
}.
End Rendering.

(** [ext?.valueString] when it is truthy, else the value the result had. *)
Definition valueStringOr (previous : option string) (ext : option Extension.t) : option string :=
  match ext with
  | Some e => if Js.truthy (Extension.valueString e) then Extension.valueString e else previous
  | None => previous
  end.

Definition getQuestionnaireItemRendering (item : QuestionnaireItem.t) : Rendering.t :=
  let styleSensitive :=
    match QuestionnaireItem.extension item with
    | Some extensions => findExtension renderingStyleSensitiveUrl extensions
    | None => None
    end in
  let resultStyleSensitive :=
    match styleSensitive with
    | Some e =>
        match Extension.valueBoolean e with
        | Some true => true
        | _ => false
        end
    | None => false
    end in
  match QuestionnaireItem._text item with
  | Some itemUnderscoreText =>
      match TextElement.extension itemUnderscoreText with
      | Some extensions =>
          Rendering.mk
            (valueStringOr None (findExtension renderingXhtmlUrl extensions))
            (valueStringOr None (findExtension renderingStyleUrl extensions))
            resultStyleSensitive
      | None => Rendering.mk None None resultStyleSensitive
      end
  | None => Rendering.mk None None resultStyleSensitive
  end.

(** The element returned by [QuestionnaireItemDisplay]: the component
    (['div'] or ['p']) and the props given to it. *)
Module DisplayElement.
Record t := mk {
  component : string;
  key : option string;
  styleCssText : option string;
  dangerouslySetInnerHTML : option string;
  children : option string
}.
End DisplayElement.

Definition QuestionnaireItemDisplay (item : QuestionnaireItem.t) : DisplayElement.t :=
  let rendering := getQuestionnaireItemRendering item in
  let xhtml := Rendering.xhtml rendering in
  let style := Rendering.style rendering in
  let styleSensitive := Rendering.styleSensitive rendering in
  DisplayElement.mk
    (if Js.truthy xhtml then "div" else "p")
    (QuestionnaireItem.linkId item)
    (if Js.truthy style && styleSensitive then style else None)
    (if Js.truthy xhtml then xhtml else None)
    (if Js.truthy xhtml then None else QuestionnaireItem.text item).

(** A registry whose parameter "contact" covers elements of the types
    Identifier and ContactPoint, in this order. *)
Module SampleMixed.

Definition contactParam : SearchParameter.t :=
  SearchParameter.mk (Some "Patient-contact") "contact" "token" "Patient.contact".

Definition mixedDefinitions : list ElementDefinition.t :=
  [ ElementDefinition.mk (Some [ElementDefinitionType.mk (Some PropertyType.Identifier)]);
    ElementDefinition.mk (Some [ElementDefinitionType.mk (Some PropertyType.ContactPoint)]) ].

#[local] Instance registry : Registry := {|
  getSearchParameters resourceType :=
    if String.eqb resourceType "Patient" then Some [contactParam] else None;
  getSearchParameterDetails resourceType searchParam :=
    SearchParameterDetails.mk (Some mixedDefinitions);
  evalFhirPathTyped expression resource :=
    Sample.property (Resource.resourceType resource) expression (Resource.properties resource);
  deriveIdentifierSearchParameter searchParam := searchParam
|}.

End SampleMixed.

(** A registry whose only parameter of Patient has a code that ends with
    ":identifier" and no element definition. *)
Module SampleSuffix.

Definition contactIdentifierParam : SearchParameter.t :=
  SearchParameter.mk (Some "Patient-contact-identifier") "contact:identifier" "token"
    "Patient.contact".

#[local] Instance registry : Registry := {|
  getSearchParameters resourceType :=
    if String.eqb resourceType "Patient" then Some [contactIdentifierParam] else None;
  getSearchParameterDetails resourceType searchParam := SearchParameterDetails.mk None;
  evalFhirPathTyped expression resource :=
    Sample.property (Resource.resourceType resource) expression (Resource.properties resource);
  deriveIdentifierSearchParameter searchParam := searchParam
|}.

Definition patient (id : string) (contacts : list TypedValue) : Resource.t :=
  Resource.mk "Patient" id [("contact", contacts)].

End SampleSuffix.

(** * Vocabulary of the properties *)

(** The token value after the lower-casing of [buildSimpleToken]. *)
Definition storedValue (caseSensitive : bool) (value : option string) : option string :=
  if Js.truthy value && negb caseSensitive
  then option_map Js.toLocaleLowerCase value
  else value.

(** The token queued for a text ([CodeableConcept.text] or [Coding.display]):
    the code is the search parameter's, the system is the string "text". *)
Definition textToken (searchParam : SearchParameter.t) (value : string) : Token.t :=
  Token.mk (SearchParameter.code searchParam) (Some "text") (Some value).

(** The token the claim describes: code "text" and no system. *)
Definition claimedTextToken (value : string) : Token.t :=
  Token.mk "text" None (Some value).

(** [token] is the token of [system] and [value] as given, or with the value
    lower-cased when the parameter is not case-sensitive. *)
Definition tokenFor (searchParam : SearchParameter.t) (caseSensitive : bool)
    (system value : option string) (token : Token.t) : Prop :=
  token = Token.mk (SearchParameter.code searchParam) system value
  \/ (caseSensitive = false
      /\ token = Token.mk (SearchParameter.code searchParam) system
                   (option_map Js.toLocaleLowerCase value)).

(** The rows of the token table of [resourceType] in [db]. *)
Definition tokenRows (db : Database) (resourceType : string) : list Row :=
  rowsOf db (getTableName resourceType).

(** The entry of the database is a row of [resource] in its token table. *)
Definition rowOfResource (resource : Resource.t) (entry : string * Row) : bool :=
  String.eqb (fst entry) (getTableName (Resource.resourceType resource))
  && isText (columnOf (snd entry) "resourceId") (Resource.id resource).

(** A character that is neither a delimiter nor the escape character. *)
Definition plainChar (c : ascii) : bool :=
  negb (Ascii.eqb c "," || Ascii.eqb c "|" || Ascii.eqb c "\").

Fixpoint plain (s : string) : bool :=
  match s with
  | EmptyString => true
  | String c rest => plainChar c && plain rest
  end.

(** The token table of [resourceType] holding the rows of [values], and
    nothing else. *)
Definition tokenTable (resourceType : string) (values : list TokenValue.t) : Database :=
  execute (insertValuesForResource resourceType values) [].

(** The scope of a token row inside the existence test for a resource. *)
Definition tokenScope (lookup resourceTableName resourceId : string) (v : TokenValue.t)
  : Scope :=
  [(lookup, rowOfValue v); (resourceTableName, [("id", SqlText resourceId)])].

(** The two conditions that correlate the token table with the resource. *)
Definition correlation (lookup resourceTableName code : string) : list Expression :=
  [ Condition (mkColumn resourceTableName "id") Operator.EQ
      (PColumn (mkColumn lookup "resourceId")) None;
    Condition (mkColumn lookup "code") Operator.EQ (PText code) None ].

(** The existence test over the token table, with the conditions [extra]
    next to the correlation. *)
Definition existsToken (lookup resourceTableName code : string) (extra : list Expression)
  : Expression :=
  SqlFunction "EXISTS"
    [SelectQuery lookup [] [Conjunction (correlation lookup resourceTableName code ++ extra)] None].

(** The row is a token of the resource [resourceId] for [code]. *)
Definition tokenOf (resourceId code : string) (v : TokenValue.t) : bool :=
  String.eqb resourceId (TokenValue.resourceId v) && String.eqb (TokenValue.code v) code.

(** The operators that reach the last two branches of [buildValueCondition]
    when the option has no system part. *)
Definition exactOperator (operator : FhirOperator.t) : bool :=
  match operator with
  | FhirOperator.EQUALS | FhirOperator.NOT_EQUALS | FhirOperator.NOT
  | FhirOperator.OTHER _ => true
  | _ => false
  end.

(** The condition on the value column for exact token equality. *)
Definition exactCondition (lookup : string) (caseSensitive : bool) (value : string)
  : Expression :=
  if caseSensitive
  then Condition (mkColumn lookup "value") Operator.EQ (PText value) None
  else Condition (mkColumn lookup "value") Operator.IN
         (PTextList [value; Js.toLocaleLowerCase value]) None.

(** The value is left as it is by lower-casing. *)
Definition lowerFixed (value : option string) : Prop :=
  option_map Js.toLocaleLowerCase value = value.

(** The token has a non-empty system or a non-empty value. *)
Definition hasSystemOrValue (token : Token.t) : bool :=
  Js.truthy (Token.system token) || Js.truthy (Token.value token).

(** A token as [buildSimpleToken] pushes it for [searchParam]: made from a
    candidate with a non-empty system or value. *)
Definition queued (searchParam : SearchParameter.t) (caseSensitive : bool) (token : Token.t)
  : Prop :=
  exists system value,
    (Js.truthy system || Js.truthy value) = true
    /\ token = Token.mk (SearchParameter.code searchParam) system
                 (storedValue caseSensitive value).

(** [result'] is [result] followed by tokens that satisfy [Q]. *)
Definition extendsWith (Q : Token.t -> Prop) (result result' : list Token.t) : Prop :=
  exists added, result' = result ++ added /\ Forall Q added.

(** The string starts with no white space. *)
Definition startsClean (s : string) : Prop :=
  match s with
  | EmptyString => True
  | String c _ => Js.isSpace c = false
  end.

(** A stored system or value in normal form: absent, or a string that is not
    empty and that [trim] leaves as it is. *)
Definition normalized (x : option string) : Prop :=
  match x with
  | None => True
  | Some s => s <> EmptyString /\ Js.trim s = s
  end.

(** The token row belongs to another resource than [resourceId]. *)
Definition ofOtherResource (resourceId : string) (v : TokenValue.t) : bool :=
  negb (String.eqb (TokenValue.resourceId v) resourceId).

(** The token row has the system [system]. *)
Definition systemIs (system : string) (v : TokenValue.t) : bool :=
  match TokenValue.system v with
  | Some a => String.eqb a system
  | None => false
  end.

(** The token row has the value [value], or for a classification that is not
    case-sensitive the value [value] or its lower-cased form. *)
Definition valueMatches (caseSensitive : bool) (value : string) (v : TokenValue.t) : bool :=
  match TokenValue.value v with
  | Some a =>
      if caseSensitive then String.eqb a value
      else String.eqb a value || String.eqb a (Js.toLocaleLowerCase value)
  | None => false
  end.

(** The string holds neither the delimiter nor the escape character. *)
Fixpoint freeOf (delim : ascii) (s : string) : bool :=
  match s with
  | EmptyString => true
  | String c rest => negb (Ascii.eqb c delim) && negb (Ascii.eqb c "\") && freeOf delim rest
  end.

(** The record is a warning for [searchFilter] on [param]: the operator is
    TEXT or CONTAINS, and the record carries the operator, the code of the
    search parameter and the raw value of the filter. *)
Definition warnsAbout (param : SearchParameter.t) (searchFilter : Filter.t)
    (record : LogRecord) : Prop :=
  (logOperator record = FhirOperator.TEXT \/ logOperator record = FhirOperator.CONTAINS)
  /\ logOperator record = Filter.operator searchFilter
  /\ logSearchParameterCode record = SearchParameter.code param
  /\ logFilterValue record = Filter.value searchFilter.

(** Some type of some element definition has the code [name]. *)
Definition listsElementType (name : string) (defs : list ElementDefinition.t) : Prop :=
  exists elementDefinition types ty,
    In elementDefinition defs
    /\ ElementDefinition.type elementDefinition = Some types
    /\ In ty types
    /\ ElementDefinitionType.code ty = Some name.

(** The row stored for a token of the resource [resourceId]: the id, the
    code, and the system and the value trimmed, [NULL] when absent or empty
    after trimming. *)
Definition rowOfToken (resourceId : string) (token : Token.t) : Row :=
  [ ("resourceId", SqlText resourceId);
    ("code", SqlText (Token.code token));
    ("system", sqlOfOption (Js.orUndefined (option_map Js.trim (Token.system token))));
    ("value", sqlOfOption (Js.orUndefined (option_map Js.trim (Token.value token)))) ].



Section Vocabulary.

Context `{Registry}.

(** The rows that [indexResource] inserts for [resource]. *)
Definition freshRows (resource : Resource.t) : Database :=
  map (fun v => (getTableName (Resource.resourceType resource), rowOfValue v))
    (tokenValues resource).

(** The context that [buildWhere] compiles the filter in. *)
Definition contextOf (resourceType : string) (param : SearchParameter.t) (filter : Filter.t)
  : FilterContext :=
  mkFilterContext param (getTableName resourceType)
    (isCaseSensitiveSearchParameter param resourceType) filter.

End Vocabulary.

(** * Properties *)

(** ** Facts on the string primitives *)

Lemma strictEq_true (x y : option string) : Js.strictEq x y = true -> x = y.
Proof.
  destruct x as [a|], y as [b|]; simpl; try discriminate; auto.
  intros E. apply String.eqb_eq in E. now subst.
Qed.

Lemma strictEq_refl (x : option string) : Js.strictEq x x = true.
Proof. destruct x; simpl; auto using String.eqb_refl. Qed.

Lemma truthy_Some (x : option string) :
  Js.truthy x = true -> exists s, x = Some s /\ s <> EmptyString.
Proof.
  destruct x as [[|c r]|]; simpl; try discriminate.
  intros _. exists (String c r). split; [reflexivity | discriminate].
Qed.

Lemma truthy_nonempty (s : string) : s <> EmptyString -> Js.truthy (Some s) = true.
Proof. destruct s; simpl; congruence. Qed.

Lemma orUndefined_never_empty (x : option string) : Js.orUndefined x <> Some EmptyString.
Proof.
  unfold Js.orUndefined. destruct x as [[|c r]|]; simpl; discriminate.
Qed.

(** ** Facts on [buildSimpleToken] *)

Lemma sameToken_eq searchParam system value token :
  sameToken searchParam system value token = true ->
  token = Token.mk (SearchParameter.code searchParam) system value.
Proof.
  unfold sameToken. intros E.
  apply andb_true_iff in E as [E Ev]. apply andb_true_iff in E as [Ec Es].
  apply String.eqb_eq in Ec. apply strictEq_true in Es. apply strictEq_true in Ev.
  destruct token as [c s v]; simpl in *. now subst.
Qed.

Lemma sameToken_refl searchParam system value :
  sameToken searchParam system value
    (Token.mk (SearchParameter.code searchParam) system value) = true.
Proof.
  unfold sameToken; simpl.
  now rewrite String.eqb_refl, !strictEq_refl.
Qed.

(** A call pushes at most one token, at the end, and only the token of the
    search parameter's code with the system given and the stored value. *)
Lemma buildSimpleToken_cases result searchParam caseSensitive system value :
  let token :=
    Token.mk (SearchParameter.code searchParam) system (storedValue caseSensitive value) in
  (buildSimpleToken result searchParam caseSensitive system value = result ++ [token]
   /\ (Js.truthy system || Js.truthy value) = true
   /\ ~ In (Token.mk (SearchParameter.code searchParam) system value) result)
  \/ (buildSimpleToken result searchParam caseSensitive system value = result
      /\ ((Js.truthy system || Js.truthy value) = false
          \/ In (Token.mk (SearchParameter.code searchParam) system value) result)).
Proof.
  intros token. unfold buildSimpleToken.
  destruct (Js.truthy system || Js.truthy value) eqn:Et; simpl.
  - destruct (existsb (sameToken searchParam system value) result) eqn:Ex; simpl.
    + right. split; [reflexivity|]. right.
      apply existsb_exists in Ex as [tok [Hin Hs]].
      apply sameToken_eq in Hs. now subst.
    + left. split; [reflexivity|]. split; [reflexivity|].
      intros Hin.
      assert (existsb (sameToken searchParam system value) result = true) as Ex'.
      { apply existsb_exists. eexists. split; [exact Hin | apply sameToken_refl]. }
      congruence.
  - right. split; [reflexivity|]. now left.
Qed.

Lemma buildSimpleToken_keeps result searchParam caseSensitive system value token :
  In token result ->
  In token (buildSimpleToken result searchParam caseSensitive system value).
Proof.
  intros Hin.
  destruct (buildSimpleToken_cases result searchParam caseSensitive system value)
    as [[E _]|[E _]]; rewrite E; auto using in_or_app.
Qed.

(** After a call with a system or a value, the list holds the token as given
    or as stored. *)
Lemma buildSimpleToken_holds result searchParam caseSensitive system value :
  (Js.truthy system || Js.truthy value) = true ->
  let result' := buildSimpleToken result searchParam caseSensitive system value in
  In (Token.mk (SearchParameter.code searchParam) system (storedValue caseSensitive value)) result'
  \/ In (Token.mk (SearchParameter.code searchParam) system value) result'.
Proof.
  intros Et result'. subst result'.
  destruct (buildSimpleToken_cases result searchParam caseSensitive system value)
    as [[E _]|[E [F|Hin]]]; rewrite E.
  - left. apply in_or_app. right. now left.
  - congruence.
  - now right.
Qed.

(** For a case-sensitive parameter the skip of queued candidates keeps the
    list free of repetitions. *)
Lemma buildSimpleToken_NoDup result searchParam system value :
  NoDup result -> NoDup (buildSimpleToken result searchParam true system value).
Proof.
  intros Hnd.
  destruct (buildSimpleToken_cases result searchParam true system value)
    as [[E [_ Hnot]]|[E _]]; rewrite E; [|exact Hnd].
  unfold storedValue. rewrite andb_false_r.
  apply NoDup_app; [exact Hnd | repeat constructor; auto |].
  intros x Hin [<-|[]]. exact (Hnot Hin).
Qed.

Lemma buildCodingToken_keeps result searchParam caseSensitive coding token :
  In token result ->
  In token (buildCodingToken result searchParam caseSensitive coding).
Proof.
  intros Hin. destruct coding as [c|]; simpl; auto.
  apply buildSimpleToken_keeps.
  destruct (Js.truthy (Coding.display c)); auto using buildSimpleToken_keeps.
Qed.

Lemma fold_codings_keeps searchParam caseSensitive codings : forall result token,
  In token result ->
  In token
    (fold_left
       (fun result coding => buildCodingToken result searchParam caseSensitive (Some coding))
       codings result).
Proof.
  induction codings as [|c rest IH]; cbn [fold_left]; intros result token Hin; auto.
  apply IH. now apply buildCodingToken_keeps.
Qed.

(** ** C1: the tokens of a CodeableConcept and of a Coding *)

Lemma buildSimpleToken_tokenFor result searchParam caseSensitive system value :
  (Js.truthy system || Js.truthy value) = true ->
  exists token,
    tokenFor searchParam caseSensitive system value token
    /\ In token (buildSimpleToken result searchParam caseSensitive system value).
Proof.
  intros Et.
  destruct (buildSimpleToken_holds result searchParam caseSensitive system value Et)
    as [Hin|Hin].
  - eexists. split; [|exact Hin].
    unfold tokenFor, storedValue.
    destruct (Js.truthy value), caseSensitive; simpl; auto.
  - eexists. split; [|exact Hin]. now left.
Qed.

Lemma buildCodingToken_tokens result searchParam caseSensitive coding :
  let result' := buildCodingToken result searchParam caseSensitive (Some coding) in
  (Js.truthy (Coding.display coding) = true ->
   exists token,
     tokenFor searchParam caseSensitive (Some "text") (Coding.display coding) token
     /\ In token result')
  /\ ((Js.truthy (Coding.system coding) || Js.truthy (Coding.code coding)) = true ->
      exists token,
        tokenFor searchParam caseSensitive (Coding.system coding) (Coding.code coding) token
        /\ In token result').
Proof.
  intros result'. subst result'. unfold buildCodingToken. split.
  - intros Ed. rewrite Ed.
    destruct (buildSimpleToken_tokenFor result searchParam caseSensitive
                (Some "text") (Coding.display coding)) as [token [Ht Hin]].
    { rewrite Ed. apply orb_true_r. }
    exists token. split; [exact Ht|]. now apply buildSimpleToken_keeps.
  - intros Es. now apply buildSimpleToken_tokenFor.
Qed.

Lemma fold_codings_tokens searchParam caseSensitive codings : forall result coding,
  In coding codings ->
  let result' :=
    fold_left
      (fun result coding => buildCodingToken result searchParam caseSensitive (Some coding))
      codings result in
  (Js.truthy (Coding.display coding) = true ->
   exists token,
     tokenFor searchParam caseSensitive (Some "text") (Coding.display coding) token
     /\ In token result')
  /\ ((Js.truthy (Coding.system coding) || Js.truthy (Coding.code coding)) = true ->
      exists token,
        tokenFor searchParam caseSensitive (Coding.system coding) (Coding.code coding) token
        /\ In token result').
Proof.
  induction codings as [|c rest IH]; cbn [fold_left]; intros result coding Hin.
  - destruct Hin.
  - destruct Hin as [->|Hin]; [|now apply IH].
    destruct (buildCodingToken_tokens result searchParam caseSensitive coding) as [Hd Hs].
    split; intros E; [destruct (Hd E) as [t [Ht Hi]] | destruct (Hs E) as [t [Ht Hi]]];
      exists t; (split; [exact Ht | now apply fold_codings_keeps]).
Qed.

(** C1, the claim as stated fails: for the Observation whose code has the
    text "Diabetes", extraction yields the single token of code "code" and
    system "text", and not the token of code "text" without system. *)
Lemma C1_counterexample :
  @getTokens Sample.registry
    (Sample.observation "obs1" (CodeableConcept.mk (Some "Diabetes") None))
  = [Token.mk "code" (Some "text") (Some "Diabetes")]
  /\ ~ In (claimedTextToken "Diabetes")
         (@getTokens Sample.registry
            (Sample.observation "obs1" (CodeableConcept.mk (Some "Diabetes") None))).
Proof.
  split; [reflexivity|].
  vm_compute. intros [E|[]]. discriminate E.
Qed.

(** C1, amended: for every CodeableConcept found by a search parameter,
    with or without codings, extraction ([buildTokens]) first handles the
    text and then each contained Coding in order.  When the text is a
    non-empty string it queues, unless the same candidate is queued already,
    the token (code: the search parameter's code, system: "text", value: the
    text, lower-cased when the parameter is not case-sensitive), so that the
    list holds this token afterwards.  For every Coding, contained in the
    concept or found directly, whose display is a non-empty string the list
    holds afterwards such a token for the display, and when its system or
    code is non-empty also the token (system: coding.system, value:
    coding.code) under the search parameter's code.  Tokens queued before
    stay queued. *)
Theorem C1_codeable_concept_tokens `{Registry}
    (result : list Token.t) (searchParam : SearchParameter.t) (resource : Resource.t)
    (codeableConcept : CodeableConcept.t) :
  let caseSensitive :=
    isCaseSensitiveSearchParameter searchParam (Resource.resourceType resource) in
  let codings :=
    match CodeableConcept.coding codeableConcept with
    | Some codings => codings
    | None => []
    end in
  let afterText :=
    if Js.truthy (CodeableConcept.text codeableConcept)
    then buildSimpleToken result searchParam caseSensitive (Some "text")
           (CodeableConcept.text codeableConcept)
    else result in
  let result' :=
    buildTokens result searchParam resource (TVCodeableConcept (Some codeableConcept)) in
  result' =
    fold_left
      (fun result coding => buildCodingToken result searchParam caseSensitive (Some coding))
      codings afterText
  /\ (forall token, In token result -> In token result')
  /\ (forall text, CodeableConcept.text codeableConcept = Some text -> text <> EmptyString ->
      (afterText = result ++ [textToken searchParam
                                (if caseSensitive then text else Js.toLocaleLowerCase text)]
       \/ (afterText = result /\ In (textToken searchParam text) result))
      /\ exists token,
           tokenFor searchParam caseSensitive (Some "text") (Some text) token
           /\ In token result')
  /\ (forall coding, In coding codings ->
      (forall display, Coding.display coding = Some display -> display <> EmptyString ->
       exists token,
         tokenFor searchParam caseSensitive (Some "text") (Some display) token
         /\ In token result')
      /\ ((Js.truthy (Coding.system coding) || Js.truthy (Coding.code coding)) = true ->
          exists token,
            tokenFor searchParam caseSensitive (Coding.system coding) (Coding.code coding) token
            /\ In token result'))
  /\ (forall coding,
        let direct := buildTokens result searchParam resource (TVCoding (Some coding)) in
        (forall token, In token result -> In token direct)
        /\ (forall display, Coding.display coding = Some display -> display <> EmptyString ->
            exists token,
              tokenFor searchParam caseSensitive (Some "text") (Some display) token
              /\ In token direct)
        /\ ((Js.truthy (Coding.system coding) || Js.truthy (Coding.code coding)) = true ->
            exists token,
              tokenFor searchParam caseSensitive (Coding.system coding) (Coding.code coding)
                token
              /\ In token direct)).
Proof.
  intros caseSensitive codings afterText result'.
  assert (result' =
    fold_left
      (fun result coding => buildCodingToken result searchParam caseSensitive (Some coding))
      codings afterText) as Eq.
  { subst result' afterText codings. cbn [buildTokens]. fold caseSensitive.
    unfold buildCodeableConceptToken.
    destruct (CodeableConcept.coding codeableConcept); reflexivity. }
  assert (forall token, In token result -> In token afterText) as Hkeep.
  { intros token Hin. subst afterText.
    destruct (Js.truthy (CodeableConcept.text codeableConcept));
      auto using buildSimpleToken_keeps. }
  split; [exact Eq|]. split; [|split; [|split]].
  - intros token Hin. rewrite Eq. apply fold_codings_keeps. now apply Hkeep.
  - intros text Ht Hne.
    assert (Js.truthy (Some text) = true) as Et by now apply truthy_nonempty.
    split.
    + subst afterText. rewrite Ht, Et.
      destruct (buildSimpleToken_cases result searchParam caseSensitive (Some "text") (Some text))
        as [[E _]|[E [F|Hin]]].
      * left. rewrite E. unfold storedValue, textToken. rewrite Et.
        now destruct caseSensitive.
      * simpl in F. discriminate F.
      * right. split; [exact E | exact Hin].
    + destruct (buildSimpleToken_tokenFor result searchParam caseSensitive
                  (Some "text") (Some text)) as [token [Htok Hin]].
      { rewrite Et. apply orb_true_r. }
      exists token. split; [exact Htok|].
      rewrite Eq. apply fold_codings_keeps. subst afterText. now rewrite Ht, Et.
  - intros coding Hin.
    destruct (fold_codings_tokens searchParam caseSensitive codings afterText coding Hin)
      as [Hd Hs].
    rewrite Eq. split.
    + intros display Ed Hne. rewrite Ed in Hd. apply Hd. now apply truthy_nonempty.
    + exact Hs.
  - intros coding direct. subst direct. cbn [buildTokens]. fold caseSensitive.
    destruct (buildCodingToken_tokens result searchParam caseSensitive coding) as [Hd Hs].
    split; [|split].
    + intros token Hin. now apply buildCodingToken_keeps.
    + intros display Ed Hne. rewrite Ed in Hd. apply Hd. now apply truthy_nonempty.
    + exact Hs.
Qed.

(** C1, amended, at the Observation code: the CodeableConcept with the text
    "Diabetes" and no coding yields the token of system "text" and value
    "Diabetes"; with one Coding of system "http://snomed.info/sct", code
    "73211009" and display "Diabetes mellitus" the list also holds the token
    of the display and the token of the system and code; and so does the
    list for that Coding found directly. *)
Lemma C1_codeable_concept_tokens_witness :
  let coding :=
    Coding.mk (Some "http://snomed.info/sct") (Some "73211009") (Some "Diabetes mellitus") in
  let resource := Sample.observation "obs1" (CodeableConcept.mk None None) in
  let textOnly :=
    @buildTokens Sample.registry [] Sample.codeParam resource
      (TVCodeableConcept (Some (CodeableConcept.mk (Some "Diabetes") None))) in
  let withCoding :=
    @buildTokens Sample.registry [] Sample.codeParam resource
      (TVCodeableConcept (Some (CodeableConcept.mk (Some "Diabetes") (Some [coding])))) in
  let direct :=
    @buildTokens Sample.registry [] Sample.codeParam resource (TVCoding (Some coding)) in
  (exists token,
     tokenFor Sample.codeParam true (Some "text") (Some "Diabetes") token
     /\ In token textOnly)
  /\ textOnly = [Token.mk "code" (Some "text") (Some "Diabetes")]
  /\ (exists token,
        tokenFor Sample.codeParam true (Some "text") (Some "Diabetes mellitus") token
        /\ In token withCoding)
  /\ (exists token,
        tokenFor Sample.codeParam true (Some "http://snomed.info/sct") (Some "73211009") token
        /\ In token withCoding)
  /\ withCoding
     = [ Token.mk "code" (Some "text") (Some "Diabetes");
         Token.mk "code" (Some "text") (Some "Diabetes mellitus");
         Token.mk "code" (Some "http://snomed.info/sct") (Some "73211009") ]
  /\ (exists token,
        tokenFor Sample.codeParam true (Some "http://snomed.info/sct") (Some "73211009") token
        /\ In token direct).
Proof.
  intros coding resource textOnly withCoding direct.
  pose proof (@C1_codeable_concept_tokens Sample.registry [] Sample.codeParam resource
                (CodeableConcept.mk (Some "Diabetes") None))
    as [_ [_ [Htext _]]].
  pose proof (@C1_codeable_concept_tokens Sample.registry [] Sample.codeParam resource
                (CodeableConcept.mk (Some "Diabetes") (Some [coding])))
    as [_ [_ [_ [Hcodings Hdirect]]]].
  split; [|split; [|split; [|split; [|split]]]].
  - apply (Htext "Diabetes" eq_refl). discriminate.
  - reflexivity.
  - apply (proj1 (Hcodings coding (or_introl eq_refl))) with (display := "Diabetes mellitus");
      [reflexivity | discriminate].
  - apply (proj2 (Hcodings coding (or_introl eq_refl))). reflexivity.
  - reflexivity.
  - apply (proj2 (proj2 (Hdirect coding))). reflexivity.
Defined.

(** ** C2 and C3: what [indexResource] stores *)

(** The rows stored never hold the empty string: a system or value that is
    empty after trimming is stored as NULL. *)
Lemma tokenValues_never_empty `{Registry} (resource : Resource.t) (v : TokenValue.t) :
  In v (tokenValues resource) ->
  TokenValue.system v <> Some EmptyString /\ TokenValue.value v <> Some EmptyString.
Proof.
  unfold tokenValues. intros Hin.
  apply in_map_iff in Hin as [token [<- _]]; simpl.
  split; apply orUndefined_never_empty.
Qed.

(** C2, the code at a failing input: a Patient with two identifiers of one
    system whose values are "123" and "123 " is stored as two rows that are
    identical on (code, system, value); and with a parameter that is not
    case-sensitive, the candidate (system "s", value "Foo") queued twice
    yields the same token twice. *)
Theorem C2_stored_rows_repeat :
  tokenRows
    (execute
       (@indexResource Sample.registry
          (Sample.patient "p1"
             [ Identifier.mk (Some "http://example.org") (Some "123");
               Identifier.mk (Some "http://example.org") (Some "123 ") ])
          true)
       [])
    "Patient"
  = [ rowOfValue (TokenValue.mk "p1" "identifier" (Some "http://example.org") (Some "123"));
      rowOfValue (TokenValue.mk "p1" "identifier" (Some "http://example.org") (Some "123")) ]
  /\ buildSimpleToken
       (buildSimpleToken [] Sample.telecomParam false (Some "s") (Some "Foo"))
       Sample.telecomParam false (Some "s") (Some "Foo")
     = [ Token.mk "telecom" (Some "s") (Some "foo");
         Token.mk "telecom" (Some "s") (Some "foo") ].
Proof. split; reflexivity. Qed.

(** C3, the code at a failing input: for a Patient whose identifier has a
    system of one space and no value, [buildSimpleToken] queues the token
    (its system is a non-empty string), and [indexResource] stores it as a
    row with neither system nor value. *)
Theorem C3_stored_row_without_system_and_value :
  @getTokens Sample.registry (Sample.patient "p1" [Identifier.mk (Some " ") None])
  = [Token.mk "identifier" (Some " ") None]
  /\ @tokenValues Sample.registry (Sample.patient "p1" [Identifier.mk (Some " ") None])
     = [TokenValue.mk "p1" "identifier" None None]
  /\ tokenRows
       (execute
          (@indexResource Sample.registry
             (Sample.patient "p1" [Identifier.mk (Some " ") None]) true)
          [])
       "Patient"
     = [ rowOfValue (TokenValue.mk "p1" "identifier" None None) ].
Proof. repeat split; reflexivity. Qed.

(** ** C9: create and update *)

Lemma filter_negb_none {A} (p : A -> bool) (l : list A) :
  List.filter p (List.filter (fun x => negb (p x)) l) = [].
Proof.
  induction l as [|x l IH]; simpl; auto.
  destruct (p x) eqn:E; simpl; auto. now rewrite E.
Qed.

Lemma filter_all {A} (p : A -> bool) (l : list A) :
  (forall x, In x l -> p x = true) -> List.filter p l = l.
Proof.
  induction l as [|x l IH]; simpl; intros Hall; auto.
  rewrite (Hall x (or_introl eq_refl)). f_equal. auto.
Qed.

Lemma filter_none {A} (p : A -> bool) (l : list A) :
  (forall x, In x l -> p x = false) -> List.filter p l = [].
Proof.
  induction l as [|x l IH]; simpl; intros Hall; auto.
  rewrite (Hall x (or_introl eq_refl)). auto.
Qed.

Section IndexingFacts.

Context `{Registry}.

Lemma freshRows_of_resource (resource : Resource.t) (entry : string * Row) :
  In entry (freshRows resource) -> rowOfResource resource entry = true.
Proof.
  unfold freshRows, tokenValues. rewrite map_map. intros Hin.
  apply in_map_iff in Hin as [token [<- _]].
  unfold rowOfResource; simpl. now rewrite !String.eqb_refl.
Qed.

Lemma freshRows_of_tokens (resource : Resource.t) :
  freshRows resource
  = map (fun token =>
           (getTableName (Resource.resourceType resource),
            rowOfToken (Resource.id resource) token))
      (getTokens resource).
Proof. unfold freshRows, tokenValues. now rewrite map_map. Qed.

(** C9: [indexResource] with [create = false] first deletes every row of the
    resource's id in the token table of its type and then inserts one row for
    each token that [getTokens] extracts from the resource, in order (the id
    of the resource, the code of the token, and its system and value
    trimmed), so that afterwards the rows of the resource are exactly these
    and every other row is as before: an entry is in the database after the
    update exactly when it was there before and is no row of the resource, or
    it is one of the inserted rows.  With [create = true] nothing is deleted:
    the same rows are added to the database as it was. *)
Theorem C9_update_replaces_create_appends (resource : Resource.t) (db : Database) :
  let inserted :=
    map (fun token =>
           (getTableName (Resource.resourceType resource),
            rowOfToken (Resource.id resource) token))
      (getTokens resource) in
  execute (indexResource resource false) db
  = execute (insertValuesForResource (Resource.resourceType resource) (tokenValues resource))
      (execute (deleteValuesForResource resource) db)
  /\ execute (indexResource resource false) db
     = List.filter (fun entry => negb (rowOfResource resource entry)) db ++ inserted
  /\ List.filter (rowOfResource resource) (execute (indexResource resource false) db)
     = inserted
  /\ List.filter (fun entry => negb (rowOfResource resource entry))
       (execute (indexResource resource false) db)
     = List.filter (fun entry => negb (rowOfResource resource entry)) db
  /\ execute (indexResource resource true) db = db ++ inserted
  /\ (forall entry,
        In entry (execute (indexResource resource false) db)
        <-> (In entry db /\ rowOfResource resource entry = false) \/ In entry inserted)
  /\ List.length inserted = List.length (getTokens resource).
Proof.
  intros inserted.
  assert (freshRows resource = inserted) as Hfresh by apply freshRows_of_tokens.
  assert (List.filter (rowOfResource resource) inserted = inserted) as Hf.
  { rewrite <- Hfresh. apply filter_all. apply freshRows_of_resource. }
  assert (List.filter (fun entry => negb (rowOfResource resource entry)) inserted = [])
    as Hn.
  { rewrite <- Hfresh. apply filter_none. intros x Hin.
    now rewrite (freshRows_of_resource _ _ Hin). }
  assert (execute (indexResource resource false) db
          = List.filter (fun entry => negb (rowOfResource resource entry)) db
              ++ inserted) as Hu.
  { rewrite <- Hfresh. reflexivity. }
  split; [reflexivity|]. split; [exact Hu|]. split; [|split; [|split; [|split]]].
  - rewrite Hu, filter_app, filter_negb_none, Hf. reflexivity.
  - rewrite Hu, filter_app, Hn, app_nil_r.
    apply filter_all. intros x Hin. apply filter_In in Hin. tauto.
  - rewrite <- Hfresh. reflexivity.
  - intros entry. rewrite Hu, in_app_iff, filter_In, negb_true_iff. tauto.
  - unfold inserted. apply length_map.
Qed.

End IndexingFacts.

(** C9 at a database that holds a row of the patient "p1" (identifier value
    "old") and a row of the patient "p2": updating "p1" with the identifier
    value "new " replaces its row by the row of the trimmed value and leaves
    the row of "p2"; indexing it as a create keeps the old row as well. *)
Lemma C9_update_replaces_create_appends_witness :
  let db :=
    [ ("Patient_Token", rowOfValue (TokenValue.mk "p1" "identifier" None (Some "old")));
      ("Patient_Token", rowOfValue (TokenValue.mk "p2" "identifier" None (Some "two"))) ] in
  let resource := Sample.patient "p1" [Identifier.mk (Some "s") (Some "new ")] in
  execute (@indexResource Sample.registry resource false) db
  = [ ("Patient_Token", rowOfValue (TokenValue.mk "p2" "identifier" None (Some "two")));
      ("Patient_Token", rowOfValue (TokenValue.mk "p1" "identifier" (Some "s") (Some "new"))) ]
  /\ execute (@indexResource Sample.registry resource true) db
     = [ ("Patient_Token", rowOfValue (TokenValue.mk "p1" "identifier" None (Some "old")));
         ("Patient_Token", rowOfValue (TokenValue.mk "p2" "identifier" None (Some "two")));
         ("Patient_Token",
          rowOfValue (TokenValue.mk "p1" "identifier" (Some "s") (Some "new"))) ].
Proof.
  intros db resource.
  pose proof (@C9_update_replaces_create_appends Sample.registry resource db)
    as [_ [Hupdate [_ [_ [Hcreate _]]]]].
  split.
  - etransitivity; [exact Hupdate | reflexivity].
  - etransitivity; [exact Hcreate | reflexivity].
Defined.

(** ** Facts on splitting *)

Lemma lowerChar_plain (c : ascii) : plainChar (Js.lowerChar c) = plainChar c.
Proof. destruct c as [[] [] [] [] [] [] [] []]; reflexivity. Qed.

Lemma toLowerCase_plain (s : string) : plain (Js.toLowerCase s) = plain s.
Proof.
  induction s as [|c rest IH]; simpl; auto.
  now rewrite lowerChar_plain, IH.
Qed.

Lemma append_empty (s : string) : (s ++ EmptyString)%string = s.
Proof. induction s as [|c rest IH]; simpl; congruence. Qed.

Lemma append_char (current : string) (c : ascii) (rest : string) :
  ((current ++ String c EmptyString) ++ rest)%string = (current ++ String c rest)%string.
Proof. induction current as [|d current IH]; simpl; congruence. Qed.

Lemma splitUnescaped_plain (delim : ascii) (input : string) :
  delim = ","%char \/ delim = "|"%char ->
  plain input = true ->
  forall splits current,
    splitUnescaped delim splits current false input = [(current ++ input)%string].
Proof.
  intros Hd. induction input as [|c rest IH]; simpl; intros Hp splits current.
  - now rewrite append_empty.
  - apply andb_true_iff in Hp as [Hc Hr].
    unfold plainChar in Hc. apply negb_true_iff in Hc.
    apply orb_false_iff in Hc as [Hc Hb]. apply orb_false_iff in Hc as [Hcomma Hpipe].
    rewrite Hb.
    assert (Ascii.eqb c delim = false) as Hne by (destruct Hd; subst; assumption).
    rewrite Hne, IH by assumption.
    now rewrite append_char.
Qed.

Lemma splitSearchOnComma_plain (input : string) :
  plain input = true -> splitSearchOnComma input = [input].
Proof.
  intros Hp. unfold splitSearchOnComma.
  rewrite splitUnescaped_plain; auto.
Qed.

Lemma splitN_plain (input : string) :
  plain input = true -> splitN input "|" 2 = [input].
Proof.
  intros Hp. unfold splitN.
  rewrite splitUnescaped_plain; auto.
Qed.

Lemma boolean_literal_plain (value : string) :
  Js.toLowerCase value = "true" \/ Js.toLowerCase value = "false" ->
  plain value = true.
Proof.
  intros Hv. rewrite <- toLowerCase_plain.
  destruct Hv as [-> | ->]; reflexivity.
Qed.

(** ** Facts on the meaning of the existence test *)

Lemma isTrue_truthOfBool (b : bool) : isTrue (truthOfBool b) = b.
Proof. now destruct b. Qed.

Lemma isTrue_truthAnd (a b : Truth) : isTrue (truthAnd a b) = isTrue a && isTrue b.
Proof. now destruct a, b. Qed.

Lemma isTrue_truthNot_bool (b : bool) : isTrue (truthNot (truthOfBool b)) = negb b.
Proof. now destruct b. Qed.

Lemma truthAny_true (ts : list Truth) : In TTrue ts -> truthAny ts = TTrue.
Proof.
  induction ts as [|t ts IH]; simpl; intros Hin; [contradiction|].
  destruct Hin as [->|Hin]; [reflexivity|].
  rewrite (IH Hin). now destruct t.
Qed.

Lemma existsb_map {A B} (f : B -> bool) (g : A -> B) (l : list A) :
  existsb f (map g l) = existsb (fun x => f (g x)) l.
Proof. induction l as [|x l IH]; simpl; congruence. Qed.

Lemma existsb_ext_in {A} (f g : A -> bool) (l : list A) :
  (forall x, In x l -> f x = g x) -> existsb f l = existsb g l.
Proof.
  induction l as [|x l IH]; simpl; intros Heq; auto.
  rewrite (Heq x (or_introl eq_refl)), IH; auto.
Qed.

Lemma tokenRows_tokenTable (resourceType : string) (values : list TokenValue.t) :
  tokenRows (tokenTable resourceType values) resourceType = map rowOfValue values.
Proof.
  unfold tokenRows, tokenTable, execute, insertValuesForResource, rowsOf; simpl.
  induction values as [|v values IH]; simpl; auto.
  rewrite String.eqb_refl; simpl. now rewrite IH.
Qed.

Section SemanticsFacts.

Context `{SqlBackend}.

(** The existence test on a database whose token table of [resourceType]
    holds the rows of [values]. *)
Lemma eval_existsToken (db : Database) (resourceType resourceTableName resourceId code : string)
    (values : list TokenValue.t) (extra : list Expression) :
  resourceTableName <> getTableName resourceType ->
  tokenRows db resourceType = map rowOfValue values ->
  let lookup := getTableName resourceType in
  eval db [(resourceTableName, [("id", SqlText resourceId)])]
    (existsToken lookup resourceTableName code extra)
  = truthOfBool
      (existsb
         (fun v =>
            tokenOf resourceId code v
            && isTrue (truthAll (map (eval db (tokenScope lookup resourceTableName resourceId v))
                                   extra)))
         values).
Proof.
  intros Hne Hrows lookup.
  assert (String.eqb lookup resourceTableName = false) as Hl.
  { apply String.eqb_neq. intros E. apply Hne. symmetry. exact E. }
  change (eval db [(resourceTableName, [("id", SqlText resourceId)])]
            (existsToken lookup resourceTableName code extra))
    with (truthOfBool
            (existsb
               (fun row =>
                  isTrue
                    (truthAll
                       (map (eval db [(lookup, row); (resourceTableName, [("id", SqlText resourceId)])])
                          [Conjunction (correlation lookup resourceTableName code ++ extra)])))
               (rowsOf db lookup))).
  f_equal. subst lookup. unfold tokenRows in Hrows. rewrite Hrows, existsb_map.
  apply existsb_ext_in. intros v _.
  change (map ?f [?e]) with [f e].
  change (truthAll [?t]) with (truthAnd t TTrue).
  rewrite isTrue_truthAnd, andb_true_r.
  change (eval ?d ?s (Conjunction ?es)) with (truthAll (map (eval d s) es)).
  rewrite map_app.
  unfold correlation, tokenOf, tokenScope.
  cbn [map app truthAll fold_right].
  rewrite !isTrue_truthAnd.
  change (eval ?d ?s (Condition ?c ?o (PColumn ?c2) ?t))
    with (evalCondition o (lookupColumn s c) (lookupColumn s c2) None).
  change (eval ?d ?s (Condition ?c ?o (PText ?x) ?t))
    with (evalCondition o (lookupColumn s c) SqlNull (Some [x])).
  cbn [lookupColumn tableName columnName].
  rewrite Hl, !String.eqb_refl.
  cbn [columnOf rowOfValue String.eqb Ascii.eqb Bool.eqb evalCondition].
  rewrite !isTrue_truthOfBool, andb_assoc. reflexivity.
Qed.

End SemanticsFacts.

(** ** C4: the operators missing and present *)

Section MissingPresent.

Context `{Registry} `{SqlBackend}.

(** For missing and present, an option without delimiter contributes no
    condition: the inner expression is absent. *)
Lemma buildWhereExpression_absent (context : FilterContext) :
  Filter.operator (filter context) = FhirOperator.MISSING
  \/ Filter.operator (filter context) = FhirOperator.PRESENT ->
  plain (Filter.value (filter context)) = true ->
  buildWhereExpression context = ([], None).
Proof.
  intros Hop Hp.
  unfold buildWhereExpression, collectSubExpressions.
  rewrite (splitSearchOnComma_plain _ Hp). cbn [fold_left].
  unfold buildWhereCondition. rewrite (splitN_plain _ Hp).
  destruct Hop as [-> | ->]; reflexivity.
Qed.

(** C4: for a filter with operator missing or present, [buildWhere] throws
    the bad-request error whenever the lower-cased raw value is neither
    "true" nor "false"; missing=true and present=false compile to the negated
    existence test, which selects the resources without a token row for the
    code; missing=false and present=true compile to the existence test, which
    selects the resources with at least one token row for the code. *)
Theorem C4_missing_present (resourceType resourceTableName : string)
    (param : SearchParameter.t) (code : string) (operator : FhirOperator.t) (value : string) :
  operator = FhirOperator.MISSING \/ operator = FhirOperator.PRESENT ->
  let filter := Filter.mk code operator value in
  let test := existsToken (getTableName resourceType) resourceTableName code [] in
  (Js.toLowerCase value <> "true" -> Js.toLowerCase value <> "false" ->
   snd (buildWhere resourceType resourceTableName param filter)
   = inl (badRequest missingMessage))
  /\ ((operator = FhirOperator.MISSING /\ Js.toLowerCase value = "true")
      \/ (operator = FhirOperator.PRESENT /\ Js.toLowerCase value = "false") ->
      snd (buildWhere resourceType resourceTableName param filter) = inr (Negation test))
  /\ ((operator = FhirOperator.MISSING /\ Js.toLowerCase value = "false")
      \/ (operator = FhirOperator.PRESENT /\ Js.toLowerCase value = "true") ->
      snd (buildWhere resourceType resourceTableName param filter) = inr test)
  /\ (resourceTableName <> getTableName resourceType ->
      forall (db : Database) (values : list TokenValue.t) (resourceId : string),
        tokenRows db resourceType = map rowOfValue values ->
        selects db resourceTableName resourceId (Negation test)
        = negb (existsb (tokenOf resourceId code) values)
        /\ selects db resourceTableName resourceId test
           = existsb (tokenOf resourceId code) values).
Proof.
  intros Hop filter test.
  assert (forall b,
            Js.toLowerCase value = "true" \/ Js.toLowerCase value = "false" ->
            shouldTokenRowExist filter = inr b ->
            snd (buildWhere resourceType resourceTableName param filter)
            = inr (if b then test else Negation test)) as Hbuild.
  { intros b Hv Hs. unfold buildWhere.
    rewrite buildWhereExpression_absent; [|exact Hop | now apply boolean_literal_plain].
    rewrite Hs. now destruct b. }
  split; [|split; [|split]].
  - intros Ht Hf. unfold buildWhere.
    destruct (buildWhereExpression _) as [log whereExpression].
    apply String.eqb_neq in Ht, Hf.
    unfold shouldTokenRowExist, filter; simpl.
    destruct Hop as [-> | ->]; simpl; now rewrite Ht, Hf.
  - intros [[-> Hv] | [-> Hv]]; apply (Hbuild false); auto;
      unfold shouldTokenRowExist, filter; simpl; now rewrite Hv.
  - intros [[-> Hv] | [-> Hv]]; apply (Hbuild true); auto;
      unfold shouldTokenRowExist, filter; simpl; now rewrite Hv.
  - intros Hne db values resourceId Hrows. unfold selects, test.
    change (eval ?d ?s (Negation ?e)) with (truthNot (eval d s e)).
    rewrite (@eval_existsToken _ db resourceType resourceTableName resourceId code values []
               Hne Hrows).
    rewrite isTrue_truthNot_bool, isTrue_truthOfBool.
    assert (forall l : list TokenValue.t,
              existsb
                (fun v =>
                   tokenOf resourceId code v
                   && isTrue
                        (truthAll
                           (map (eval db (tokenScope (getTableName resourceType)
                                            resourceTableName resourceId v)) [])))
                l
              = existsb (tokenOf resourceId code) l) as Hx.
    { intros l. apply existsb_ext_in. intros v _. simpl. apply andb_true_r. }
    now rewrite Hx.
Qed.

End MissingPresent.

(** C4 at the patients' identifier: missing=TRUE compiles to the negated
    existence test; missing=maybe throws; on the database after indexing the
    patient "p1" with one identifier, the negated test selects the patient
    "p2" exactly when no token row is one of "p2" for the code. *)
Lemma C4_missing_present_witness :
  snd (@buildWhere Sample.registry Sample.backend "Patient" "Patient" Sample.identifierParam
         (Filter.mk "identifier" FhirOperator.MISSING "TRUE"))
  = inr (Negation (existsToken "Patient_Token" "Patient" "identifier" []))
  /\ snd (@buildWhere Sample.registry Sample.backend "Patient" "Patient" Sample.identifierParam
            (Filter.mk "identifier" FhirOperator.MISSING "maybe"))
     = inl (badRequest missingMessage)
  /\ @selects Sample.backend
       (execute
          (@indexResource Sample.registry
             (Sample.patient "p1" [Identifier.mk (Some "s") (Some "123")]) true) [])
       "Patient" "p2"
       (Negation (existsToken "Patient_Token" "Patient" "identifier" []))
     = negb (existsb (tokenOf "p2" "identifier")
               [TokenValue.mk "p1" "identifier" (Some "s") (Some "123")]).
Proof.
  split; [|split].
  - apply (proj1 (proj2 (@C4_missing_present Sample.registry Sample.backend
                           "Patient" "Patient" Sample.identifierParam "identifier"
                           FhirOperator.MISSING "TRUE" (or_introl eq_refl)))).
    left. split; reflexivity.
  - apply (proj1 (@C4_missing_present Sample.registry Sample.backend
                    "Patient" "Patient" Sample.identifierParam "identifier"
                    FhirOperator.MISSING "maybe" (or_introl eq_refl)));
      discriminate.
  - apply (proj2 (proj2 (proj2 (@C4_missing_present Sample.registry Sample.backend
                    "Patient" "Patient" Sample.identifierParam "identifier"
                    FhirOperator.MISSING "TRUE" (or_introl eq_refl)))));
      [discriminate | reflexivity].
Defined.

(** ** C5: indexing and searching an identifier *)

(** C5: after indexing a Patient with the identifier of system
    "http://example.org" and value "123", and another with value "124", the
    predicate compiled for identifier EQUALS "http://example.org|123" is the
    existence test on the system and the value, which selects the first
    Patient and does not select the second. *)
Theorem C5_identifier_round_trip :
  let db :=
    execute
      (@indexResource Sample.registry
         (Sample.patient "p124" [Identifier.mk (Some "http://example.org") (Some "124")]) true)
      (execute
         (@indexResource Sample.registry
            (Sample.patient "p123" [Identifier.mk (Some "http://example.org") (Some "123")]) true)
         []) in
  let predicate :=
    existsToken "Patient_Token" "Patient" "identifier"
      [Disjunction
         [Conjunction
            [ Condition (mkColumn "Patient_Token" "system") Operator.EQ
                (PText "http://example.org") None;
              Condition (mkColumn "Patient_Token" "value") Operator.EQ (PText "123") None ]]] in
  @buildWhere Sample.registry Sample.backend "Patient" "Patient" Sample.identifierParam
    (Filter.mk "identifier" FhirOperator.EQUALS "http://example.org|123")
  = ([], inr predicate)
  /\ @selects Sample.backend db "Patient" "p123" predicate = true
  /\ @selects Sample.backend db "Patient" "p124" predicate = false.
Proof. repeat split; vm_compute; reflexivity. Qed.

(** ** Exact token equality *)

Section ExactEquality.

Context `{SqlBackend}.

Lemma buildValueCondition_exact (context : FilterContext) (value : string) :
  exactOperator (Filter.operator (filter context)) = true ->
  buildValueCondition context value
  = ([], exactCondition (lookupTableName context) (caseSensitive context) (Js.trim value)).
Proof.
  unfold buildValueCondition, exactCondition. intros Hop.
  destruct (Filter.operator (filter context)); try discriminate Hop;
    now destruct (caseSensitive context).
Qed.

Lemma buildWhereCondition_exact (context : FilterContext) (option : string) :
  exactOperator (Filter.operator (filter context)) = true ->
  List.length (splitN option "|" 2) <> 2 ->
  buildWhereCondition context option
  = ([], Some (exactCondition (lookupTableName context) (caseSensitive context)
                 (Js.trim option))).
Proof.
  intros Hop Hlen. unfold buildWhereCondition.
  assert (shouldCompareTokenValue (Filter.operator (filter context)) = true) as Hc.
  { destruct (Filter.operator (filter context)); try discriminate Hop; reflexivity. }
  rewrite Hc, (buildValueCondition_exact _ _ Hop).
  destruct (splitN option "|" 2) as [|a [|b [|c l]]]; simpl in Hlen; try congruence;
    destruct (Filter.operator (filter context)); try discriminate Hop; reflexivity.
Qed.

Lemma buildWhereExpression_exact (context : FilterContext) :
  exactOperator (Filter.operator (filter context)) = true ->
  plain (Filter.value (filter context)) = true ->
  buildWhereExpression context
  = ([], Some (Disjunction
                 [exactCondition (lookupTableName context) (caseSensitive context)
                    (Js.trim (Filter.value (filter context)))])).
Proof.
  intros Hop Hp.
  unfold buildWhereExpression, collectSubExpressions.
  rewrite (splitSearchOnComma_plain _ Hp). cbn [fold_left].
  rewrite buildWhereCondition_exact; [reflexivity | exact Hop |].
  now rewrite (splitN_plain _ Hp).
Qed.

Lemma lookupColumn_token (lookup resourceTableName resourceId : string) (v : TokenValue.t)
    (name : string) :
  lookupColumn (tokenScope lookup resourceTableName resourceId v) (mkColumn lookup name)
  = columnOf (rowOfValue v) name.
Proof. unfold tokenScope; cbn [lookupColumn tableName columnName]. now rewrite String.eqb_refl. Qed.

(** A token row whose value is [value] satisfies the condition of exact
    equality with [value], whatever the classification. *)
Lemma eval_exactCondition (db : Database) (lookup resourceTableName resourceId : string)
    (v : TokenValue.t) (caseSensitive : bool) (value : string) :
  TokenValue.value v = Some value ->
  eval db (tokenScope lookup resourceTableName resourceId v)
    (exactCondition lookup caseSensitive value) = TTrue.
Proof.
  intros Hv. unfold exactCondition.
  destruct caseSensitive; cbn [eval]; rewrite lookupColumn_token;
    cbn [columnOf rowOfValue String.eqb Ascii.eqb Bool.eqb]; rewrite Hv;
    cbn [sqlOfOption evalCondition existsb]; rewrite String.eqb_refl; reflexivity.
Qed.

End ExactEquality.

(** ** C6: negation *)

Section Negated.

Context `{Registry} `{SqlBackend}.

(** [buildWhere] returns the existence test over the correlation and the
    inner expression, if any, negated or not as [shouldTokenRowExist] says. *)
Lemma buildWhere_shape (resourceType resourceTableName : string)
    (param : SearchParameter.t) (filter : Filter.t) :
  snd (buildWhere resourceType resourceTableName param filter)
  = match shouldTokenRowExist filter with
    | inl error => inl error
    | inr shouldExist =>
        let test :=
          existsToken (getTableName resourceType) resourceTableName (Filter.code filter)
            (match snd (buildWhereExpression (contextOf resourceType param filter)) with
             | Some e => [e]
             | None => []
             end) in
        inr (if shouldExist then test else Negation test)
    end.
Proof.
  unfold buildWhere, contextOf.
  destruct (buildWhereExpression _) as [log [e|]];
    destruct (shouldTokenRowExist filter) as [error|[|]]; reflexivity.
Qed.

(** A resource with a token row for the code that satisfies one of the
    alternatives is found by the existence test over their disjunction. *)
Lemma selects_disjunction (db : Database)
    (resourceType resourceTableName resourceId code : string)
    (values : list TokenValue.t) (v : TokenValue.t) (alternatives : list Expression) :
  resourceTableName <> getTableName resourceType ->
  tokenRows db resourceType = map rowOfValue values ->
  In v values ->
  tokenOf resourceId code v = true ->
  In TTrue
    (map (eval db (tokenScope (getTableName resourceType) resourceTableName resourceId v))
       alternatives) ->
  selects db resourceTableName resourceId
    (existsToken (getTableName resourceType) resourceTableName code [Disjunction alternatives])
  = true.
Proof.
  intros Hne Hrows Hin Htok Halt. unfold selects.
  rewrite (@eval_existsToken _ db resourceType resourceTableName resourceId code values _
             Hne Hrows).
  rewrite isTrue_truthOfBool. apply existsb_exists. exists v. split; [exact Hin|].
  rewrite Htok. cbn [map truthAll fold_right andb].
  change (eval ?d ?s (Disjunction ?es)) with (truthAny (map (eval d s) es)).
  now rewrite (truthAny_true _ Halt).
Qed.

(** A resource without token row for the code is not found by the existence
    test, whatever the inner expression. *)
Lemma selects_none (db : Database) (resourceType resourceTableName resourceId code : string)
    (values : list TokenValue.t) (extra : list Expression) :
  resourceTableName <> getTableName resourceType ->
  tokenRows db resourceType = map rowOfValue values ->
  existsb (tokenOf resourceId code) values = false ->
  eval db [(resourceTableName, [("id", SqlText resourceId)])]
    (existsToken (getTableName resourceType) resourceTableName code extra)
  = TFalse.
Proof.
  intros Hne Hrows Hnone.
  rewrite (@eval_existsToken _ db resourceType resourceTableName resourceId code values _
             Hne Hrows).
  change TFalse with (truthOfBool false). f_equal.
  apply not_true_is_false. intros Hex.
  apply existsb_exists in Hex as [v [Hin Hv]].
  apply andb_true_iff in Hv as [Htok _].
  assert (existsb (tokenOf resourceId code) values = true) as Hyes.
  { apply existsb_exists. now exists v. }
  congruence.
Qed.

(** C6: for the operators NOT_EQUALS and NOT, [buildWhere] negates the
    existence test; for every other operator that compares the token value
    the test is not negated.  With NOT_EQUALS and a value without delimiter
    and surrounding space, the predicate does not select a resource all of
    whose token rows for the code (and there is one) have that value, and
    selects a resource without token row for the code. *)
Theorem C6_not_equals_negates (resourceType resourceTableName : string)
    (param : SearchParameter.t) (code : string) (operator : FhirOperator.t) (value : string) :
  resourceTableName <> getTableName resourceType ->
  let searchFilter := Filter.mk code operator value in
  let lookup := getTableName resourceType in
  (operator = FhirOperator.NOT \/ operator = FhirOperator.NOT_EQUALS ->
   exists extra,
     snd (buildWhere resourceType resourceTableName param searchFilter)
     = inr (Negation (existsToken lookup resourceTableName code extra)))
  /\ (shouldCompareTokenValue operator = true ->
      operator <> FhirOperator.NOT -> operator <> FhirOperator.NOT_EQUALS ->
      exists extra,
        snd (buildWhere resourceType resourceTableName param searchFilter)
        = inr (existsToken lookup resourceTableName code extra))
  /\ (operator = FhirOperator.NOT_EQUALS -> plain value = true -> Js.trim value = value ->
      exists predicate,
        snd (buildWhere resourceType resourceTableName param searchFilter) = inr predicate
        /\ forall (db : Database) (values : list TokenValue.t) (resourceId : string),
             tokenRows db resourceType = map rowOfValue values ->
             (existsb (tokenOf resourceId code) values = true ->
              (forall v, In v values -> tokenOf resourceId code v = true ->
                         TokenValue.value v = Some value) ->
              selects db resourceTableName resourceId predicate = false)
             /\ (existsb (tokenOf resourceId code) values = false ->
                 selects db resourceTableName resourceId predicate = true)).
Proof.
  intros Hne searchFilter lookup.
  pose proof (buildWhere_shape resourceType resourceTableName param searchFilter) as Hshape.
  split; [|split].
  - intros Hop. eexists. rewrite Hshape.
    destruct Hop as [-> | ->]; reflexivity.
  - intros Hc Hn1 Hn2. eexists. rewrite Hshape.
    destruct operator; try discriminate Hc; try congruence; reflexivity.
  - intros -> Hp Htrim. eexists. split.
    + rewrite Hshape.
      unfold contextOf. rewrite buildWhereExpression_exact by (try reflexivity; exact Hp).
      cbn [shouldTokenRowExist shouldCompareTokenValue Filter.operator searchFilter snd
           lookupTableName caseSensitive Filter.value filter Filter.code].
      rewrite Htrim. reflexivity.
    + intros db values resourceId Hrows. unfold selects.
      change (eval ?d ?s (Negation ?e)) with (truthNot (eval d s e)).
      split.
      * intros Hex Hall.
        apply existsb_exists in Hex as [v [Hin Htok]].
        assert (selects db resourceTableName resourceId
                  (existsToken (getTableName resourceType) resourceTableName code
                     [Disjunction
                        [exactCondition (getTableName resourceType)
                           (isCaseSensitiveSearchParameter param resourceType) value]])
                = true) as Hsel.
        { apply selects_disjunction with (values := values) (v := v); auto.
          left. now apply eval_exactCondition, Hall. }
        unfold selects in Hsel.
        destruct (eval _ _ (existsToken _ _ _ _)); simpl in *; congruence.
      * intros Hnone.
        now rewrite (@selects_none db resourceType resourceTableName resourceId code values _
                       Hne Hrows Hnone).
Qed.

End Negated.

(** C6 at the patients' identifier and the value "X", on the database
    after indexing the patient "p1" whose only identifier has the value "X":
    the predicate does not select "p1", and selects the patient "p2", who has
    no token row. *)
Lemma C6_not_equals_negates_witness :
  exists predicate,
    snd (@buildWhere Sample.registry Sample.backend "Patient" "Patient" Sample.identifierParam
           (Filter.mk "identifier" FhirOperator.NOT_EQUALS "X"))
    = inr predicate
    /\ @selects Sample.backend
         (execute
            (@indexResource Sample.registry
               (Sample.patient "p1" [Identifier.mk None (Some "X")]) true) [])
         "Patient" "p1" predicate = false
    /\ @selects Sample.backend
         (execute
            (@indexResource Sample.registry
               (Sample.patient "p1" [Identifier.mk None (Some "X")]) true) [])
         "Patient" "p2" predicate = true.
Proof.
  assert ("Patient" <> getTableName "Patient") as Hne by discriminate.
  destruct (proj2 (proj2 (@C6_not_equals_negates Sample.registry Sample.backend
                            "Patient" "Patient" Sample.identifierParam "identifier"
                            FhirOperator.NOT_EQUALS "X" Hne))
              eq_refl eq_refl eq_refl) as [predicate [Hb Hsel]].
  exists predicate. split; [exact Hb|]. split.
  - apply (proj1 (Hsel
                    (execute
                       (@indexResource Sample.registry
                          (Sample.patient "p1" [Identifier.mk None (Some "X")]) true) [])
                    [TokenValue.mk "p1" "identifier" None (Some "X")] "p1" eq_refl)).
    + reflexivity.
    + intros v [<-|[]] _. reflexivity.
  - apply (proj2 (Hsel
                    (execute
                       (@indexResource Sample.registry
                          (Sample.patient "p1" [Identifier.mk None (Some "X")]) true) [])
                    [TokenValue.mk "p1" "identifier" None (Some "X")] "p2" eq_refl)).
    reflexivity.
Defined.

(** ** C7: alternatives separated by commas *)

(** C7, the claim as stated fails: with the operator IDENTIFIER the filter
    value "a,b,c" compiles to the existence test without inner expression,
    and with the operator NOT_EQUALS the predicate compiled for "a,b,c" does
    not select the patient whose identifier token has the value "a". *)
Lemma C7_counterexample :
  @buildWhere Sample.registry Sample.backend "Patient" "Patient" Sample.identifierParam
    (Filter.mk "identifier" FhirOperator.IDENTIFIER "a,b,c")
  = ([], inr (existsToken "Patient_Token" "Patient" "identifier" []))
  /\ exists predicate,
       snd (@buildWhere Sample.registry Sample.backend "Patient" "Patient"
              Sample.identifierParam
              (Filter.mk "identifier" FhirOperator.NOT_EQUALS "a,b,c"))
       = inr predicate
       /\ @selects Sample.backend
            (execute
               (@indexResource Sample.registry
                  (Sample.patient "p1" [Identifier.mk None (Some "a")]) true) [])
            "Patient" "p1" predicate = false.
Proof.
  split; [reflexivity|].
  eexists. split; [reflexivity|]. vm_compute. reflexivity.
Qed.

Section Alternatives.

Context `{Registry} `{SqlBackend}.

(** C7, amended: for a filter whose raw value is "a,b,c" and whose operator
    is none of MISSING, PRESENT and IDENTIFIER, each of the three options
    compiles to a condition and the inner expression is the disjunction of
    the three, in order; when the operator is neither NOT nor NOT_EQUALS,
    [buildWhere] returns the existence test over that disjunction, and it
    selects every resource that has a token row for the code satisfying the
    condition of one of the three options. *)
Theorem C7_comma_disjunction (resourceType resourceTableName : string)
    (param : SearchParameter.t) (code : string) (operator : FhirOperator.t) :
  operator <> FhirOperator.MISSING ->
  operator <> FhirOperator.PRESENT ->
  operator <> FhirOperator.IDENTIFIER ->
  let searchFilter := Filter.mk code operator "a,b,c" in
  let context := contextOf resourceType param searchFilter in
  let lookup := getTableName resourceType in
  exists a b c,
    snd (buildWhereCondition context "a") = Some a
    /\ snd (buildWhereCondition context "b") = Some b
    /\ snd (buildWhereCondition context "c") = Some c
    /\ snd (buildWhereExpression context) = Some (Disjunction [a; b; c])
    /\ (operator <> FhirOperator.NOT -> operator <> FhirOperator.NOT_EQUALS ->
        snd (buildWhere resourceType resourceTableName param searchFilter)
        = inr (existsToken lookup resourceTableName code [Disjunction [a; b; c]])
        /\ (resourceTableName <> lookup ->
            forall (db : Database) (values : list TokenValue.t) (resourceId : string)
                   (v : TokenValue.t),
              tokenRows db resourceType = map rowOfValue values ->
              In v values ->
              tokenOf resourceId code v = true ->
              In TTrue
                (map (eval db (tokenScope lookup resourceTableName resourceId v)) [a; b; c]) ->
              selects db resourceTableName resourceId
                (existsToken lookup resourceTableName code [Disjunction [a; b; c]])
              = true)).
Proof.
  intros Hm Hp Hi searchFilter context lookup.
  assert (forall a b c,
            snd (buildWhereExpression context) = Some (Disjunction [a; b; c]) ->
            operator <> FhirOperator.NOT -> operator <> FhirOperator.NOT_EQUALS ->
            snd (buildWhere resourceType resourceTableName param searchFilter)
            = inr (existsToken lookup resourceTableName code [Disjunction [a; b; c]])
            /\ (resourceTableName <> lookup ->
                forall (db : Database) (values : list TokenValue.t) (resourceId : string)
                       (v : TokenValue.t),
                  tokenRows db resourceType = map rowOfValue values ->
                  In v values ->
                  tokenOf resourceId code v = true ->
                  In TTrue
                    (map (eval db (tokenScope lookup resourceTableName resourceId v))
                       [a; b; c]) ->
                  selects db resourceTableName resourceId
                    (existsToken lookup resourceTableName code [Disjunction [a; b; c]])
                  = true)) as Hrest.
  { intros a b c Hexpr Hn1 Hn2. split.
    - rewrite buildWhere_shape. fold context. rewrite Hexpr.
      destruct operator; try congruence; reflexivity.
    - intros Hne db values resourceId v Hrows Hin Htok Halt.
      now apply selects_disjunction with (values := values) (v := v). }
  subst context. unfold contextOf in *.
  destruct (isCaseSensitiveSearchParameter param resourceType);
    destruct operator; try congruence;
    do 3 eexists;
    (split; [reflexivity|]); (split; [reflexivity|]); (split; [reflexivity|]);
    (split; [reflexivity|]); apply Hrest; reflexivity.
Qed.

End Alternatives.

(** C7, amended, at the patients' identifier with the operator EQUALS, on
    the database after indexing the patient "p1" whose identifier has the
    value "b": the predicate selects "p1". *)
Lemma C7_comma_disjunction_witness :
  exists a b c,
    snd (@buildWhereExpression Sample.backend
           (@contextOf Sample.registry "Patient" Sample.identifierParam
              (Filter.mk "identifier" FhirOperator.EQUALS "a,b,c")))
    = Some (Disjunction [a; b; c])
    /\ snd (@buildWhere Sample.registry Sample.backend "Patient" "Patient"
              Sample.identifierParam (Filter.mk "identifier" FhirOperator.EQUALS "a,b,c"))
       = inr (existsToken "Patient_Token" "Patient" "identifier" [Disjunction [a; b; c]])
    /\ @selects Sample.backend
         (execute
            (@indexResource Sample.registry
               (Sample.patient "p1" [Identifier.mk None (Some "b")]) true) [])
         "Patient" "p1"
         (existsToken "Patient_Token" "Patient" "identifier" [Disjunction [a; b; c]])
       = true.
Proof.
  destruct (@C7_comma_disjunction Sample.registry Sample.backend
              "Patient" "Patient" Sample.identifierParam "identifier" FhirOperator.EQUALS)
    as [a [b [c [Ha [Hb [Hc [Hexpr Hrest]]]]]]]; try discriminate.
  exists a, b, c. split; [exact Hexpr|].
  destruct Hrest as [Hbuild Hsel]; try discriminate.
  split; [exact Hbuild|].
  apply Hsel with (values := [TokenValue.mk "p1" "identifier" None (Some "b")])
                  (v := TokenValue.mk "p1" "identifier" None (Some "b")).
  - discriminate.
  - reflexivity.
  - now left.
  - reflexivity.
  - right. left.
    injection Hb as <-. reflexivity.
Defined.

(** ** C8: the value condition of exact token equality *)

(** C8, the claim as stated fails: for the option " a" (with a leading
    space), case-sensitive, the compiled condition compares the value with
    "a", not with the option. *)
Lemma C8_counterexample :
  snd (@buildWhereCondition Sample.backend
         (mkFilterContext Sample.identifierParam "Patient_Token" true
            (Filter.mk "identifier" FhirOperator.EQUALS " a"))
         " a")
  = Some (Condition (mkColumn "Patient_Token" "value") Operator.EQ (PText "a") None)
  /\ snd (@buildWhereCondition Sample.backend
            (mkFilterContext Sample.identifierParam "Patient_Token" true
               (Filter.mk "identifier" FhirOperator.EQUALS " a"))
            " a")
     <> Some (Condition (mkColumn "Patient_Token" "value") Operator.EQ (PText " a") None).
Proof. split; [reflexivity | discriminate]. Qed.

(** C8, amended: for an option without system part and an operator of exact
    token equality (EQUALS, NOT_EQUALS, NOT, or one that the token table does
    not name), the compiled condition is, with the option trimmed: when the
    classification is case-sensitive, value = trim(option); otherwise
    value IN (trim(option), lower(trim(option))), a set of two elements. *)
Theorem C8_exact_value_condition `{SqlBackend} (context : FilterContext) (option : string) :
  exactOperator (Filter.operator (filter context)) = true ->
  List.length (splitN option "|" 2) <> 2 ->
  buildWhereCondition context option
  = ([],
     Some
       (if caseSensitive context
        then Condition (mkColumn (lookupTableName context) "value") Operator.EQ
               (PText (Js.trim option)) None
        else Condition (mkColumn (lookupTableName context) "value") Operator.IN
               (PTextList [Js.trim option; Js.toLocaleLowerCase (Js.trim option)]) None)).
Proof. intros Hop Hlen. now apply buildWhereCondition_exact. Qed.

(** C8, amended, at the option " Foo@Example.com " of a parameter that is
    not case-sensitive. *)
Lemma C8_exact_value_condition_witness :
  @buildWhereCondition Sample.backend
    (mkFilterContext Sample.telecomParam "Patient_Token" false
       (Filter.mk "telecom" FhirOperator.EQUALS " Foo@Example.com "))
    " Foo@Example.com "
  = ([],
     Some (Condition (mkColumn "Patient_Token" "value") Operator.IN
             (PTextList ["Foo@Example.com"; "foo@example.com"]) None)).
Proof.
  apply (@C8_exact_value_condition Sample.backend
           (mkFilterContext Sample.telecomParam "Patient_Token" false
              (Filter.mk "telecom" FhirOperator.EQUALS " Foo@Example.com "))
           " Foo@Example.com ");
    [reflexivity | vm_compute; discriminate].
Defined.

(** * Further properties of the token table *)

(** ** Extraction: what the builders push *)

Lemma lowerChar_idempotent (c : ascii) : Js.lowerChar (Js.lowerChar c) = Js.lowerChar c.
Proof. destruct c as [[] [] [] [] [] [] [] []]; reflexivity. Qed.

Lemma toLowerCase_idempotent (s : string) :
  Js.toLowerCase (Js.toLowerCase s) = Js.toLowerCase s.
Proof.
  induction s as [|c rest IH]; simpl; auto.
  now rewrite lowerChar_idempotent, IH.
Qed.

Lemma truthy_lower (value : option string) :
  Js.truthy (option_map Js.toLocaleLowerCase value) = Js.truthy value.
Proof. destruct value as [[|c rest]|]; reflexivity. Qed.

Lemma truthy_storedValue (caseSensitive : bool) (value : option string) :
  Js.truthy (storedValue caseSensitive value) = Js.truthy value.
Proof.
  unfold storedValue.
  destruct (Js.truthy value && negb caseSensitive); auto using truthy_lower.
Qed.

Lemma lowerFixed_lower (value : option string) :
  lowerFixed (option_map Js.toLocaleLowerCase value).
Proof.
  unfold lowerFixed, Js.toLocaleLowerCase.
  destruct value as [s|]; simpl; [|reflexivity].
  now rewrite toLowerCase_idempotent.
Qed.

Lemma lowerFixed_falsy (value : option string) : Js.truthy value = false -> lowerFixed value.
Proof. destruct value as [[|c rest]|]; simpl; try discriminate; reflexivity. Qed.

Lemma lowerFixed_storedValue_insensitive (value : option string) :
  lowerFixed (storedValue false value).
Proof.
  unfold storedValue. rewrite andb_true_r.
  destruct (Js.truthy value) eqn:E; auto using lowerFixed_lower, lowerFixed_falsy.
Qed.

Lemma lowerFixed_storedValue (caseSensitive : bool) (value : option string) :
  lowerFixed value -> lowerFixed (storedValue caseSensitive value).
Proof.
  intros Hf. unfold storedValue.
  destruct (Js.truthy value && negb caseSensitive); auto.
  unfold lowerFixed in *. now rewrite Hf.
Qed.

Lemma queued_code searchParam caseSensitive token :
  queued searchParam caseSensitive token ->
  Token.code token = SearchParameter.code searchParam.
Proof. intros [system [value [_ ->]]]. reflexivity. Qed.

Lemma queued_hasSystemOrValue searchParam caseSensitive token :
  queued searchParam caseSensitive token -> hasSystemOrValue token = true.
Proof.
  intros [system [value [Ht ->]]]. unfold hasSystemOrValue; simpl.
  now rewrite truthy_storedValue.
Qed.

Lemma queued_lowerFixed searchParam token :
  queued searchParam false token -> lowerFixed (Token.value token).
Proof.
  intros [system [value [_ ->]]]. simpl. apply lowerFixed_storedValue_insensitive.
Qed.

Lemma extendsWith_refl Q result : extendsWith Q result result.
Proof. exists []. split; [now rewrite app_nil_r | constructor]. Qed.

Lemma extendsWith_trans Q r1 r2 r3 :
  extendsWith Q r1 r2 -> extendsWith Q r2 r3 -> extendsWith Q r1 r3.
Proof.
  intros [a [-> Ha]] [b [-> Hb]]. exists (a ++ b).
  split; [now rewrite app_assoc | now apply Forall_app].
Qed.

Lemma extendsWith_weaken (Q Q' : Token.t -> Prop) result result' :
  (forall token, Q token -> Q' token) ->
  extendsWith Q result result' -> extendsWith Q' result result'.
Proof.
  intros Himp [added [-> Ha]]. exists added. split; [reflexivity|].
  eapply Forall_impl; eauto.
Qed.

Lemma extendsWith_fold {A} Q (step : list Token.t -> A -> list Token.t) (items : list A) :
  (forall result item, extendsWith Q result (step result item)) ->
  forall result, extendsWith Q result (fold_left step items result).
Proof.
  intros Hstep. induction items as [|x items IH]; cbn [fold_left]; intros result.
  - apply extendsWith_refl.
  - eapply extendsWith_trans; [apply Hstep | apply IH].
Qed.

Lemma buildSimpleToken_extends result searchParam caseSensitive system value :
  extendsWith (queued searchParam caseSensitive) result
    (buildSimpleToken result searchParam caseSensitive system value).
Proof.
  destruct (buildSimpleToken_cases result searchParam caseSensitive system value)
    as [[E [Ht _]]|[E _]]; rewrite E.
  - eexists. split; [reflexivity|]. repeat constructor.
    exists system, value. now split.
  - apply extendsWith_refl.
Qed.

Lemma buildCodingToken_extends result searchParam caseSensitive coding :
  extendsWith (queued searchParam caseSensitive) result
    (buildCodingToken result searchParam caseSensitive coding).
Proof.
  destruct coding as [c|]; cbn [buildCodingToken]; [|apply extendsWith_refl].
  eapply extendsWith_trans; [|apply buildSimpleToken_extends].
  destruct (Js.truthy (Coding.display c));
    [apply buildSimpleToken_extends | apply extendsWith_refl].
Qed.

Lemma buildCodeableConceptToken_extends result searchParam caseSensitive codeableConcept :
  extendsWith (queued searchParam caseSensitive) result
    (buildCodeableConceptToken result searchParam caseSensitive codeableConcept).
Proof.
  destruct codeableConcept as [cc|]; cbn [buildCodeableConceptToken];
    [|apply extendsWith_refl].
  assert (extendsWith (queued searchParam caseSensitive) result
            (if Js.truthy (CodeableConcept.text cc)
             then buildSimpleToken result searchParam caseSensitive (Some "text")
                    (CodeableConcept.text cc)
             else result)) as Htext.
  { destruct (Js.truthy (CodeableConcept.text cc));
      [apply buildSimpleToken_extends | apply extendsWith_refl]. }
  destruct (CodeableConcept.coding cc) as [codings|]; [|exact Htext].
  eapply extendsWith_trans; [exact Htext|].
  apply extendsWith_fold. intros r c. apply buildCodingToken_extends.
Qed.

(** The value that [buildContactPointToken] hands to [buildSimpleToken]. *)
Lemma contactPoint_value_lowerFixed (value : option string) :
  lowerFixed (if Js.truthy value then option_map Js.toLocaleLowerCase value else value).
Proof.
  destruct (Js.truthy value) eqn:E; auto using lowerFixed_lower, lowerFixed_falsy.
Qed.

Lemma buildContactPointToken_extends result searchParam caseSensitive contactPoint :
  extendsWith
    (fun token => queued searchParam caseSensitive token /\ lowerFixed (Token.value token))
    result
    (buildContactPointToken result searchParam caseSensitive contactPoint).
Proof.
  unfold buildContactPointToken.
  set (system := match contactPoint with Some cp => ContactPoint.system cp | None => None end).
  set (value := match contactPoint with Some cp => ContactPoint.value cp | None => None end).
  set (lowered := if Js.truthy value then option_map Js.toLocaleLowerCase value else value).
  destruct (buildSimpleToken_cases result searchParam caseSensitive system lowered)
    as [[E [Ht _]]|[E _]]; rewrite E.
  - eexists. split; [reflexivity|]. repeat constructor.
    + exists system, lowered. now split.
    + simpl. apply lowerFixed_storedValue. apply contactPoint_value_lowerFixed.
  - apply extendsWith_refl.
Qed.

Section ExtractionFacts.

Context `{Registry}.

Lemma buildTokens_extends result searchParam resource typedValue :
  extendsWith
    (queued searchParam
       (isCaseSensitiveSearchParameter searchParam (Resource.resourceType resource)))
    result
    (buildTokens result searchParam resource typedValue).
Proof.
  destruct typedValue; cbn [buildTokens].
  - apply buildSimpleToken_extends.
  - apply buildCodeableConceptToken_extends.
  - apply buildCodingToken_extends.
  - eapply extendsWith_weaken; [|apply buildContactPointToken_extends].
    intros token [Hq _]. exact Hq.
  - apply buildSimpleToken_extends.
Qed.

Lemma buildTokensForSearchParameter_extends result resource searchParam :
  extendsWith
    (queued searchParam
       (isCaseSensitiveSearchParameter searchParam (Resource.resourceType resource)))
    result
    (buildTokensForSearchParameter result resource searchParam).
Proof.
  unfold buildTokensForSearchParameter.
  apply extendsWith_fold. intros r tv. apply buildTokens_extends.
Qed.

(** X1: [buildTokensForSearchParameter] only appends: the tokens queued
    before stay in place, in order, and every token it adds carries the code
    of the search parameter and a non-empty system or a non-empty value. *)
Theorem X1_search_parameter_tokens_appended (result : list Token.t) (resource : Resource.t)
    (searchParam : SearchParameter.t) :
  exists added,
    buildTokensForSearchParameter result resource searchParam = result ++ added
    /\ Forall
         (fun token =>
            Token.code token = SearchParameter.code searchParam
            /\ hasSystemOrValue token = true)
         added.
Proof.
  eapply extendsWith_weaken; [|apply buildTokensForSearchParameter_extends].
  intros token Hq. split; eauto using queued_code, queued_hasSystemOrValue.
Qed.

(** X2: every token that [getTokens] extracts from a resource has a
    non-empty system or a non-empty value, whatever the registry and the
    resource. *)
Theorem X2_extracted_tokens_have_system_or_value (resource : Resource.t) :
  Forall (fun token => hasSystemOrValue token = true) (getTokens resource).
Proof.
  unfold getTokens.
  destruct (getSearchParameters (Resource.resourceType resource)) as [searchParams|];
    [|constructor].
  assert (forall result searchParam,
            extendsWith (fun token => hasSystemOrValue token = true) result
              (buildTokensForSearchParameter result resource searchParam)) as Hone.
  { intros result searchParam.
    eapply extendsWith_weaken; [|apply buildTokensForSearchParameter_extends].
    intros token Hq. eauto using queued_hasSystemOrValue. }
  match goal with
  | |- Forall _ (fold_left ?step _ _) =>
      destruct (@extendsWith_fold _ (fun token => hasSystemOrValue token = true)
                  step searchParams) with (result := @nil Token.t) as [added [-> Ha]]
  end.
  - intros result searchParam. cbv beta zeta.
    assert (extendsWith (fun token => hasSystemOrValue token = true) result
              (match getTokenIndexType searchParam (Resource.resourceType resource) with
               | Some _ => buildTokensForSearchParameter result resource searchParam
               | None => result
               end)) as Hfirst.
    { destruct (getTokenIndexType searchParam (Resource.resourceType resource));
        [apply Hone | apply extendsWith_refl]. }
    destruct (String.eqb (SearchParameter.type searchParam) "reference");
      [|exact Hfirst].
    eapply extendsWith_trans; [exact Hfirst | apply Hone].
  - exact Ha.
Qed.

(** X3: a ContactPoint is queued with its value lower-cased whatever the
    classification of the search parameter: every token that [buildTokens]
    adds for a ContactPoint has a value that lower-casing leaves as it is. *)
Theorem X3_contact_point_value_lower_cased (result : list Token.t)
    (searchParam : SearchParameter.t) (resource : Resource.t)
    (contactPoint : option ContactPoint.t) :
  exists added,
    buildTokens result searchParam resource (TVContactPoint contactPoint) = result ++ added
    /\ Forall
         (fun token =>
            Token.code token = SearchParameter.code searchParam
            /\ lowerFixed (Token.value token))
         added.
Proof.
  cbn [buildTokens].
  eapply extendsWith_weaken; [|apply buildContactPointToken_extends].
  intros token [Hq Hl]. split; eauto using queued_code.
Qed.

(** X4: for a search parameter that is not classified case-sensitive, every
    token that [buildTokensForSearchParameter] adds has a value that
    lower-casing leaves as it is, whatever the shape of the values found. *)
Theorem X4_insensitive_values_lower_cased (result : list Token.t) (resource : Resource.t)
    (searchParam : SearchParameter.t) :
  isCaseSensitiveSearchParameter searchParam (Resource.resourceType resource) = false ->
  exists added,
    buildTokensForSearchParameter result resource searchParam = result ++ added
    /\ Forall (fun token => lowerFixed (Token.value token)) added.
Proof.
  intros Hcs.
  eapply extendsWith_weaken; [|apply buildTokensForSearchParameter_extends].
  rewrite Hcs. intros token Hq. eauto using queued_lowerFixed.
Qed.

End ExtractionFacts.

(** X4 at the Patient "p1" with the telecom "Foo@Bar.com": the token is
    queued with the value "foo@bar.com". *)
Lemma X4_insensitive_values_lower_cased_witness :
  exists added,
    @buildTokensForSearchParameter Sample.registry []
      (Resource.mk "Patient" "p1"
         [("telecom", [TVContactPoint (Some (ContactPoint.mk (Some "email") (Some "Foo@Bar.com")))])])
      Sample.telecomParam
    = [] ++ added
    /\ Forall (fun token => lowerFixed (Token.value token)) added
    /\ added = [Token.mk "telecom" (Some "email") (Some "foo@bar.com")].
Proof.
  destruct (@X4_insensitive_values_lower_cased Sample.registry []
              (Resource.mk "Patient" "p1"
                 [("telecom",
                   [TVContactPoint (Some (ContactPoint.mk (Some "email") (Some "Foo@Bar.com")))])])
              Sample.telecomParam eq_refl) as [added [E Hl]].
  exists added. split; [exact E|]. split; [exact Hl|].
  symmetry. exact E.
Defined.

(** ** Extraction: repetitions *)

(** A candidate whose value is not changed by the lower-casing of
    [buildSimpleToken] is queued at most once. *)
Lemma buildSimpleToken_NoDup_fixed result searchParam caseSensitive system value :
  caseSensitive = true \/ lowerFixed value ->
  NoDup result ->
  NoDup (buildSimpleToken result searchParam caseSensitive system value).
Proof.
  intros Hfix Hnd.
  assert (storedValue caseSensitive value = value) as Hs.
  { unfold storedValue. destruct Hfix as [-> | Hl].
    - now rewrite andb_false_r.
    - destruct (Js.truthy value && negb caseSensitive); auto. }
  destruct (buildSimpleToken_cases result searchParam caseSensitive system value)
    as [[E [_ Hnot]]|[E _]]; rewrite E; [|exact Hnd].
  rewrite Hs.
  apply NoDup_app; [exact Hnd | repeat constructor; auto |].
  intros x Hin [<-|[]]. exact (Hnot Hin).
Qed.

Lemma buildCodingToken_NoDup result searchParam coding :
  NoDup result -> NoDup (buildCodingToken result searchParam true coding).
Proof.
  intros Hnd. destruct coding as [c|]; cbn [buildCodingToken]; [|exact Hnd].
  apply buildSimpleToken_NoDup_fixed; [now left|].
  destruct (Js.truthy (Coding.display c)); [|exact Hnd].
  apply buildSimpleToken_NoDup_fixed; [now left | exact Hnd].
Qed.

Lemma fold_NoDup {A} (step : list Token.t -> A -> list Token.t) (items : list A) :
  (forall result item, NoDup result -> NoDup (step result item)) ->
  forall result, NoDup result -> NoDup (fold_left step items result).
Proof.
  intros Hstep. induction items as [|x items IH]; cbn [fold_left]; auto.
Qed.

Lemma buildCodeableConceptToken_NoDup result searchParam codeableConcept :
  NoDup result -> NoDup (buildCodeableConceptToken result searchParam true codeableConcept).
Proof.
  intros Hnd. destruct codeableConcept as [cc|]; cbn [buildCodeableConceptToken];
    [|exact Hnd].
  assert (NoDup (if Js.truthy (CodeableConcept.text cc)
                 then buildSimpleToken result searchParam true (Some "text")
                        (CodeableConcept.text cc)
                 else result)) as Htext.
  { destruct (Js.truthy (CodeableConcept.text cc)); [|exact Hnd].
    apply buildSimpleToken_NoDup_fixed; [now left | exact Hnd]. }
  destruct (CodeableConcept.coding cc) as [codings|]; [|exact Htext].
  apply fold_NoDup; [|exact Htext].
  intros r c Hr. now apply buildCodingToken_NoDup.
Qed.

Lemma buildContactPointToken_NoDup result searchParam caseSensitive contactPoint :
  NoDup result -> NoDup (buildContactPointToken result searchParam caseSensitive contactPoint).
Proof.
  intros Hnd. unfold buildContactPointToken.
  apply buildSimpleToken_NoDup_fixed; [|exact Hnd].
  right. apply contactPoint_value_lowerFixed.
Qed.

(** X5: for a search parameter classified case-sensitive, a list of tokens
    without repetition stays without repetition through
    [buildTokensForSearchParameter]: no token is queued twice, whatever the
    values found. *)
Theorem X5_case_sensitive_tokens_not_repeated `{Registry} (result : list Token.t)
    (resource : Resource.t) (searchParam : SearchParameter.t) :
  isCaseSensitiveSearchParameter searchParam (Resource.resourceType resource) = true ->
  NoDup result ->
  NoDup (buildTokensForSearchParameter result resource searchParam).
Proof.
  intros Hcs Hnd. unfold buildTokensForSearchParameter.
  apply fold_NoDup; [|exact Hnd].
  intros r tv Hr. unfold buildTokens. rewrite Hcs.
  destruct tv.
  - apply buildSimpleToken_NoDup_fixed; [now left | exact Hr].
  - now apply buildCodeableConceptToken_NoDup.
  - now apply buildCodingToken_NoDup.
  - now apply buildContactPointToken_NoDup.
  - apply buildSimpleToken_NoDup_fixed; [now left | exact Hr].
Qed.

(** X5 at a Patient with the same identifier twice: one token. *)
Lemma X5_case_sensitive_tokens_not_repeated_witness :
  NoDup
    (@buildTokensForSearchParameter Sample.registry []
       (Sample.patient "p1"
          [Identifier.mk (Some "s") (Some "ABC"); Identifier.mk (Some "s") (Some "ABC")])
       Sample.identifierParam)
  /\ @buildTokensForSearchParameter Sample.registry []
       (Sample.patient "p1"
          [Identifier.mk (Some "s") (Some "ABC"); Identifier.mk (Some "s") (Some "ABC")])
       Sample.identifierParam
     = [Token.mk "identifier" (Some "s") (Some "ABC")].
Proof.
  split; [|reflexivity].
  apply (@X5_case_sensitive_tokens_not_repeated Sample.registry []
           (Sample.patient "p1"
              [Identifier.mk (Some "s") (Some "ABC"); Identifier.mk (Some "s") (Some "ABC")])
           Sample.identifierParam eq_refl).
  constructor.
Defined.

(** X6: a ContactPoint is never queued twice, whatever the classification:
    a list of tokens without repetition stays without repetition through
    [buildContactPointToken]. *)
Theorem X6_contact_point_not_repeated (result : list Token.t)
    (searchParam : SearchParameter.t) (caseSensitive : bool)
    (contactPoint : option ContactPoint.t) :
  NoDup result ->
  NoDup (buildContactPointToken result searchParam caseSensitive contactPoint).
Proof. intros Hnd. now apply buildContactPointToken_NoDup. Qed.

(** X6 at the telecom "Foo@Bar.com" queued twice with a classification that
    is not case-sensitive: one token. *)
Lemma X6_contact_point_not_repeated_witness :
  NoDup
    (buildContactPointToken
       (buildContactPointToken [] Sample.telecomParam false
          (Some (ContactPoint.mk (Some "email") (Some "Foo@Bar.com"))))
       Sample.telecomParam false
       (Some (ContactPoint.mk (Some "email") (Some "Foo@Bar.com"))))
  /\ buildContactPointToken
       (buildContactPointToken [] Sample.telecomParam false
          (Some (ContactPoint.mk (Some "email") (Some "Foo@Bar.com"))))
       Sample.telecomParam false
       (Some (ContactPoint.mk (Some "email") (Some "Foo@Bar.com")))
     = [Token.mk "telecom" (Some "email") (Some "foo@bar.com")].
Proof.
  split; [|reflexivity].
  apply X6_contact_point_not_repeated.
  apply X6_contact_point_not_repeated.
  constructor.
Defined.

(** ** The store: normal form, idempotence, frame *)

Lemma trimStart_clean (s : string) : startsClean (Js.trimStart s).
Proof.
  induction s as [|c rest IH]; simpl; auto.
  destruct (Js.isSpace c) eqn:E; simpl; auto.
Qed.

Lemma trimStart_of_clean (s : string) : startsClean s -> Js.trimStart s = s.
Proof. destruct s as [|c rest]; simpl; auto. now intros ->. Qed.

Lemma trimEnd_clean (s : string) : startsClean s -> startsClean (Js.trimEnd s).
Proof.
  destruct s as [|c rest]; simpl; auto. intros Hc.
  destruct (Js.trimEnd rest); rewrite ?Hc; simpl; exact Hc.
Qed.

Lemma trimEnd_idempotent (s : string) : Js.trimEnd (Js.trimEnd s) = Js.trimEnd s.
Proof.
  induction s as [|c rest IH]; simpl; auto.
  destruct (Js.trimEnd rest) as [|d t] eqn:Et.
  - destruct (Js.isSpace c) eqn:Ec; simpl; [reflexivity | now rewrite Ec].
  - change (Js.trimEnd (String c (String d t)))
      with (match Js.trimEnd (String d t) with
            | EmptyString => if Js.isSpace c then EmptyString else String c EmptyString
            | String a b => String c (String a b)
            end).
    now rewrite IH.
Qed.

Lemma trim_idempotent (s : string) : Js.trim (Js.trim s) = Js.trim s.
Proof.
  unfold Js.trim.
  rewrite (trimStart_of_clean (Js.trimEnd (Js.trimStart s))).
  - apply trimEnd_idempotent.
  - apply trimEnd_clean, trimStart_clean.
Qed.

Lemma normalized_orUndefined_trim (x : option string) :
  normalized (Js.orUndefined (option_map Js.trim x)).
Proof.
  unfold Js.orUndefined. destruct x as [s|]; simpl; auto.
  destruct (Js.trim s) as [|c t] eqn:E; simpl; auto.
  split; [discriminate|]. rewrite <- E. apply trim_idempotent.
Qed.

Lemma length_append (a b : string) :
  String.length (a ++ b) = String.length a + String.length b.
Proof. induction a as [|c a IH]; simpl; auto. Qed.

Lemma append_cancel_r (s : string) : forall a b : string,
  (a ++ s)%string = (b ++ s)%string -> a = b.
Proof.
  induction a as [|c a IH]; destruct b as [|d b]; simpl; intros E; auto.
  - apply (f_equal String.length) in E. simpl in E. rewrite length_append in E. lia.
  - apply (f_equal String.length) in E. simpl in E. rewrite length_append in E. lia.
  - injection E as -> E. f_equal. now apply IH.
Qed.

Lemma getTableName_injective (a b : string) : getTableName a = getTableName b -> a = b.
Proof. apply append_cancel_r. Qed.

Lemma rowsOf_app (a b : Database) (table : string) :
  rowsOf (a ++ b) table = rowsOf a table ++ rowsOf b table.
Proof. unfold rowsOf. now rewrite filter_app, map_app. Qed.

Lemma rowsOf_other_table (table table' : string) (rows : list Row) :
  table <> table' -> rowsOf (map (pair table) rows) table' = [].
Proof.
  intros Hne. unfold rowsOf.
  induction rows as [|r rows IH]; simpl; auto.
  apply String.eqb_neq in Hne. now rewrite Hne.
Qed.

Lemma rowsOf_same_table (table : string) (rows : list Row) :
  rowsOf (map (pair table) rows) table = rows.
Proof.
  unfold rowsOf. induction rows as [|r rows IH]; simpl; auto.
  rewrite String.eqb_refl. simpl. now rewrite IH.
Qed.

(** Deleting the rows of a resource from a token table that holds the rows
    of [old] leaves the rows of the other resources. *)
Lemma rowsOf_delete (db : Database) (resource : Resource.t) : forall old,
  tokenRows db (Resource.resourceType resource) = map rowOfValue old ->
  tokenRows (execute (deleteValuesForResource resource) db) (Resource.resourceType resource)
  = map rowOfValue (List.filter (ofOtherResource (Resource.id resource)) old).
Proof.
  unfold tokenRows, execute, deleteValuesForResource, rowsOf; simpl.
  induction db as [|[table row] db IH]; simpl; intros old Hrows.
  - destruct old; [reflexivity | discriminate].
  - destruct (String.eqb table (getTableName (Resource.resourceType resource))) eqn:Et;
      simpl in *.
    + destruct old as [|v old]; [discriminate|].
      injection Hrows as -> Hrows.
      unfold ofOtherResource at 1. simpl.
      destruct (String.eqb (TokenValue.resourceId v) (Resource.id resource)); simpl.
      * now apply IH.
      * rewrite Et. simpl. f_equal. now apply IH.
    + rewrite Et. now apply IH.
Qed.

Lemma rowsOf_delete_other (db : Database) (resource : Resource.t) (table : string) :
  table <> getTableName (Resource.resourceType resource) ->
  rowsOf (execute (deleteValuesForResource resource) db) table = rowsOf db table.
Proof.
  intros Hne. unfold execute, deleteValuesForResource, rowsOf; simpl.
  induction db as [|[t row] db IH]; simpl; auto.
  destruct (String.eqb t table) eqn:Et; simpl.
  - apply String.eqb_eq in Et. subst t.
    apply String.eqb_neq in Hne. rewrite Hne. simpl.
    rewrite String.eqb_refl. simpl. now rewrite IH.
  - destruct (negb _); simpl; [rewrite Et|]; exact IH.
Qed.

Section StoreFacts.

Context `{Registry}.

Lemma indexResource_update (resource : Resource.t) (db : Database) :
  execute (indexResource resource false) db
  = execute (deleteValuesForResource resource) db ++ freshRows resource.
Proof. reflexivity. Qed.

Lemma indexResource_create (resource : Resource.t) (db : Database) :
  execute (indexResource resource true) db = db ++ freshRows resource.
Proof. reflexivity. Qed.

Lemma delete_freshRows (resource : Resource.t) :
  execute (deleteValuesForResource resource) (freshRows resource) = [].
Proof.
  unfold execute, deleteValuesForResource; simpl.
  apply filter_none. intros entry Hin.
  apply freshRows_of_resource in Hin. unfold rowOfResource in Hin. now rewrite Hin.
Qed.

Lemma delete_app (resource : Resource.t) (a b : Database) :
  execute (deleteValuesForResource resource) (a ++ b)
  = execute (deleteValuesForResource resource) a
    ++ execute (deleteValuesForResource resource) b.
Proof. unfold execute, deleteValuesForResource; simpl. apply filter_app. Qed.

Lemma delete_idempotent (resource : Resource.t) (db : Database) :
  execute (deleteValuesForResource resource)
    (execute (deleteValuesForResource resource) db)
  = execute (deleteValuesForResource resource) db.
Proof.
  unfold execute, deleteValuesForResource; simpl.
  apply filter_all. intros entry Hin. apply filter_In in Hin. tauto.
Qed.

(** X7: an update is idempotent and absorbs what was indexed before:
    updating a resource right after indexing it (as a create or as an
    update) leaves the database that the update alone gives; in particular
    re-indexing an unchanged resource twice gives the same rows as once. *)
Theorem X7_update_absorbs_previous_indexing (resource : Resource.t) (create : bool)
    (db : Database) :
  execute (indexResource resource false) (execute (indexResource resource create) db)
  = execute (indexResource resource false) db.
Proof.
  rewrite (indexResource_update resource (execute (indexResource resource create) db)).
  destruct create.
  - rewrite indexResource_create, delete_app, delete_freshRows, app_nil_r.
    reflexivity.
  - rewrite (indexResource_update resource db), delete_app, delete_freshRows, app_nil_r,
      delete_idempotent.
    reflexivity.
Qed.

(** X8: indexing a resource touches only the token table of its own type:
    the rows of every other table are as before, for a create and for an
    update; in particular the token table of another resource type. *)
Theorem X8_other_tables_untouched (resource : Resource.t) (create : bool) (db : Database)
    (table : string) :
  table <> getTableName (Resource.resourceType resource) ->
  rowsOf (execute (indexResource resource create) db) table = rowsOf db table.
Proof.
  intros Hne.
  assert (rowsOf (freshRows resource) table = []) as Hfresh.
  { unfold freshRows. rewrite <- map_map with (g := pair _).
    apply rowsOf_other_table. congruence. }
  destruct create.
  - now rewrite indexResource_create, rowsOf_app, Hfresh, app_nil_r.
  - rewrite indexResource_update, rowsOf_app, Hfresh, app_nil_r.
    now apply rowsOf_delete_other.
Qed.

(** X9: every row that [indexResource] inserts is in normal form: its system
    and its value are each absent or a non-empty string without surrounding
    white space; the row carries the id of the resource. *)
Theorem X9_stored_values_normalized (resource : Resource.t) (v : TokenValue.t) :
  In v (tokenValues resource) ->
  TokenValue.resourceId v = Resource.id resource
  /\ normalized (TokenValue.system v)
  /\ normalized (TokenValue.value v).
Proof.
  unfold tokenValues. intros Hin.
  apply in_map_iff in Hin as [token [<- _]]; simpl.
  split; [reflexivity|]. split; apply normalized_orUndefined_trim.
Qed.

(** The token table of the resource's type after an update, when it held
    the rows of [old] before: the rows of the other resources, then the rows
    extracted from the resource. *)
Lemma tokenRows_after_update (resource : Resource.t) (db : Database)
    (old : list TokenValue.t) :
  tokenRows db (Resource.resourceType resource) = map rowOfValue old ->
  tokenRows (execute (indexResource resource false) db) (Resource.resourceType resource)
  = map rowOfValue
      (List.filter (ofOtherResource (Resource.id resource)) old ++ tokenValues resource).
Proof.
  intros Hrows. rewrite indexResource_update. unfold tokenRows.
  rewrite rowsOf_app, map_app. f_equal.
  - now apply rowsOf_delete.
  - unfold freshRows. rewrite <- map_map with (g := pair _).
    apply rowsOf_same_table.
Qed.

End StoreFacts.

(** X8 at a Patient indexed into a database that holds a token row of an
    Observation: the Observation's token table is as before. *)
Lemma X8_other_tables_untouched_witness :
  rowsOf
    (execute
       (@indexResource Sample.registry
          (Sample.patient "p1" [Identifier.mk (Some "s") (Some "1")]) false)
       [("Observation_Token", rowOfValue (TokenValue.mk "o1" "code" None (Some "x")))])
    "Observation_Token"
  = [rowOfValue (TokenValue.mk "o1" "code" None (Some "x"))].
Proof.
  apply (@X8_other_tables_untouched Sample.registry
           (Sample.patient "p1" [Identifier.mk (Some "s") (Some "1")]) false
           [("Observation_Token", rowOfValue (TokenValue.mk "o1" "code" None (Some "x")))]
           "Observation_Token").
  discriminate.
Defined.

(** X9 at a Patient whose identifier has the system " http://x " and the
    value "  ": the row has the system "http://x" and no value. *)
Lemma X9_stored_values_normalized_witness :
  @tokenValues Sample.registry
    (Sample.patient "p1" [Identifier.mk (Some " http://x ") (Some "  ")])
  = [TokenValue.mk "p1" "identifier" (Some "http://x") None]
  /\ normalized (Some "http://x")
  /\ normalized None.
Proof.
  split; [reflexivity|].
  exact (proj2 (@X9_stored_values_normalized Sample.registry
                  (Sample.patient "p1" [Identifier.mk (Some " http://x ") (Some "  ")])
                  (TokenValue.mk "p1" "identifier" (Some "http://x") None)
                  (or_introl eq_refl))).
Defined.

(** ** Compilation: errors, log, and what the predicates select *)

Lemma splitUnescaped_freeOf (delim : ascii) (input : string) :
  freeOf delim input = true ->
  forall splits current,
    splitUnescaped delim splits current false input = [(current ++ input)%string].
Proof.
  induction input as [|c rest IH]; simpl; intros Hf splits current.
  - now rewrite append_empty.
  - apply andb_true_iff in Hf as [Hf Hr]. apply andb_true_iff in Hf as [Hd Hb].
    apply negb_true_iff in Hd, Hb.
    rewrite Hb, Hd, IH by assumption. now rewrite append_char.
Qed.

Lemma splitUnescaped_no_split (delim : ascii) (input : string) :
  forall current escaped,
    splitUnescaped delim 0 current escaped input = [(current ++ input)%string].
Proof.
  induction input as [|c rest IH]; simpl; intros current escaped.
  - now rewrite append_empty.
  - destruct escaped; [|destruct (Ascii.eqb c "\"); [|destruct (Ascii.eqb c delim)]];
      rewrite IH; now rewrite append_char.
Qed.

Lemma plain_freeOf (s : string) :
  plain s = true -> freeOf "," s = true /\ freeOf "|" s = true.
Proof.
  induction s as [|c rest IH]; simpl; auto.
  intros Hp. apply andb_true_iff in Hp as [Hc Hr].
  destruct (IH Hr) as [-> ->].
  unfold plainChar in Hc. apply negb_true_iff in Hc.
  apply orb_false_iff in Hc as [Hc ->]. apply orb_false_iff in Hc as [-> ->].
  auto.
Qed.

Lemma freeOf_append (delim : ascii) (a b : string) :
  freeOf delim (a ++ b) = freeOf delim a && freeOf delim b.
Proof.
  induction a as [|c a IH]; simpl; auto.
  rewrite IH. now rewrite !andb_assoc.
Qed.

(** An option [system|value] whose parts hold no delimiter is one option,
    and splits at the bar into its two parts. *)
Lemma split_system_value (system value : string) :
  plain system = true -> freeOf "," value = true ->
  splitSearchOnComma (system ++ "|" ++ value) = [(system ++ "|" ++ value)%string]
  /\ splitN (system ++ "|" ++ value) "|" 2 = [system; value].
Proof.
  intros Hs Hv. split.
  - unfold splitSearchOnComma. rewrite splitUnescaped_freeOf; [reflexivity|].
    rewrite freeOf_append. destruct (plain_freeOf _ Hs) as [-> _]. simpl. exact Hv.
  - unfold splitN. simpl.
    assert (forall current,
              splitUnescaped "|" 1 current false (system ++ String "|" value)
              = [(current ++ system)%string; value]) as Hgo.
    { induction system as [|c rest IH]; simpl; intros current.
      - now rewrite append_empty, splitUnescaped_no_split.
      - simpl in Hs. apply andb_true_iff in Hs as [Hc Hr].
        unfold plainChar in Hc. apply negb_true_iff in Hc.
        apply orb_false_iff in Hc as [Hc Hb]. apply orb_false_iff in Hc as [_ Hp].
        rewrite Hb, Hp, (IH Hr). now rewrite append_char. }
    apply (Hgo EmptyString).
Qed.

Section CompilationFacts.

Context `{Registry} `{SqlBackend}.

Lemma isTrue_single_disjunction (db : Database) (scope : Scope) (e : Expression) :
  isTrue (truthAll (map (eval db scope) [Disjunction [e]])) = isTrue (eval db scope e).
Proof.
  cbn [map truthAll fold_right].
  change (eval db scope (Disjunction [e])) with (truthOr (eval db scope e) TFalse).
  now destruct (eval db scope e).
Qed.

Lemma isTrue_eval_text (db : Database) (lookup resourceTableName resourceId : string)
    (v : TokenValue.t) (name text : string) :
  isTrue (eval db (tokenScope lookup resourceTableName resourceId v)
            (Condition (mkColumn lookup name) Operator.EQ (PText text) None))
  = isText (columnOf (rowOfValue v) name) text.
Proof.
  cbn [eval]. rewrite lookupColumn_token.
  destruct (columnOf (rowOfValue v) name); simpl; auto using isTrue_truthOfBool.
Qed.

Lemma isTrue_eval_system (db : Database) (lookup resourceTableName resourceId : string)
    (v : TokenValue.t) (system : string) :
  isTrue (eval db (tokenScope lookup resourceTableName resourceId v)
            (Condition (mkColumn lookup "system") Operator.EQ (PText system) None))
  = systemIs system v.
Proof.
  rewrite isTrue_eval_text. unfold systemIs. simpl.
  now destruct (TokenValue.system v).
Qed.

Lemma isTrue_eval_exact (db : Database) (lookup resourceTableName resourceId : string)
    (v : TokenValue.t) (caseSensitive : bool) (value : string) :
  isTrue (eval db (tokenScope lookup resourceTableName resourceId v)
            (exactCondition lookup caseSensitive value))
  = valueMatches caseSensitive value v.
Proof.
  unfold exactCondition, valueMatches. destruct caseSensitive.
  - rewrite isTrue_eval_text. simpl. now destruct (TokenValue.value v).
  - cbn [eval]. rewrite lookupColumn_token. simpl.
    destruct (TokenValue.value v); simpl; auto.
    now rewrite isTrue_truthOfBool, orb_false_r.
Qed.

(** The existence test over one alternative selects the resources that have
    a token row for the code on which the alternative is true. *)
Lemma selects_single (db : Database) (resourceType resourceTableName resourceId code : string)
    (values : list TokenValue.t) (e : Expression) :
  resourceTableName <> getTableName resourceType ->
  tokenRows db resourceType = map rowOfValue values ->
  selects db resourceTableName resourceId
    (existsToken (getTableName resourceType) resourceTableName code [Disjunction [e]])
  = existsb
      (fun v =>
         tokenOf resourceId code v
         && isTrue (eval db (tokenScope (getTableName resourceType) resourceTableName
                               resourceId v) e))
      values.
Proof.
  intros Hne Hrows. unfold selects.
  rewrite (@eval_existsToken _ db resourceType resourceTableName resourceId code values _
             Hne Hrows).
  rewrite isTrue_truthOfBool. apply existsb_ext_in. intros v _.
  now rewrite isTrue_single_disjunction.
Qed.

(** X10: [buildWhere] throws exactly for the operators missing and present
    with a value that is, lower-cased, neither "true" nor "false"; for every
    other filter it returns an expression. *)
Theorem X10_buildWhere_throws_exactly (resourceType resourceTableName : string)
    (param : SearchParameter.t) (searchFilter : Filter.t) :
  (exists error,
     snd (buildWhere resourceType resourceTableName param searchFilter) = inl error)
  <-> ((Filter.operator searchFilter = FhirOperator.MISSING
        \/ Filter.operator searchFilter = FhirOperator.PRESENT)
       /\ Js.toLowerCase (Filter.value searchFilter) <> "true"
       /\ Js.toLowerCase (Filter.value searchFilter) <> "false").
Proof.
  rewrite buildWhere_shape.
  destruct searchFilter as [code operator value]; simpl.
  unfold shouldTokenRowExist; simpl.
  split.
  - intros [error Herr].
    destruct operator; simpl in Herr; try discriminate Herr;
      destruct (String.eqb (Js.toLowerCase value) "true") eqn:Et; try discriminate Herr;
      destruct (String.eqb (Js.toLowerCase value) "false") eqn:Ef; try discriminate Herr;
      apply String.eqb_neq in Et, Ef; auto.
  - intros [Hop [Ht Hf]]. apply String.eqb_neq in Ht, Hf.
    exists (badRequest missingMessage).
    destruct Hop as [-> | ->]; simpl; now rewrite Ht, Hf.
Qed.

(** X11: a resource without token row for the filter's code is selected
    exactly when [shouldTokenRowExist] says that no row should exist (the
    operators NOT and NOT_EQUALS, missing=true, present=false), whatever the
    value of the filter and the other rows of the table. *)
Theorem X11_resource_without_tokens (db : Database)
    (resourceType resourceTableName resourceId : string)
    (param : SearchParameter.t) (searchFilter : Filter.t) (values : list TokenValue.t)
    (shouldExist : bool) :
  resourceTableName <> getTableName resourceType ->
  tokenRows db resourceType = map rowOfValue values ->
  existsb (tokenOf resourceId (Filter.code searchFilter)) values = false ->
  shouldTokenRowExist searchFilter = inr shouldExist ->
  exists predicate,
    snd (buildWhere resourceType resourceTableName param searchFilter) = inr predicate
    /\ selects db resourceTableName resourceId predicate = negb shouldExist.
Proof.
  intros Hne Hrows Hnone Hshould.
  rewrite buildWhere_shape, Hshould. cbv zeta.
  eexists. split; [reflexivity|].
  unfold selects.
  destruct shouldExist.
  - now rewrite (@selects_none _ db resourceType resourceTableName resourceId _ values _
                   Hne Hrows Hnone).
  - change (eval ?d ?s (Negation ?e)) with (truthNot (eval d s e)).
    now rewrite (@selects_none _ db resourceType resourceTableName resourceId _ values _
                   Hne Hrows Hnone).
Qed.

(** X12: for the operator EQUALS and a value [system|value] whose system is
    not empty, whose parts hold no delimiter and whose value is not empty and
    has no surrounding white space, the predicate selects exactly the
    resources that have a token row for the code with that system and that
    value (for a classification that is not case-sensitive: that value or
    its lower-cased form). *)
Theorem X12_system_and_value_search (db : Database)
    (resourceType resourceTableName resourceId : string)
    (param : SearchParameter.t) (code system value : string) (values : list TokenValue.t) :
  resourceTableName <> getTableName resourceType ->
  tokenRows db resourceType = map rowOfValue values ->
  plain system = true -> system <> EmptyString ->
  plain value = true -> value <> EmptyString -> Js.trim value = value ->
  exists predicate,
    snd (buildWhere resourceType resourceTableName param
           (Filter.mk code FhirOperator.EQUALS (system ++ "|" ++ value)))
    = inr predicate
    /\ selects db resourceTableName resourceId predicate
       = existsb
           (fun v =>
              tokenOf resourceId code v
              && (systemIs system v
                  && valueMatches (isCaseSensitiveSearchParameter param resourceType) value v))
           values.
Proof.
  intros Hne Hrows Hs Hsne Hv Hvne Htrim.
  destruct (split_system_value system value Hs (proj1 (plain_freeOf _ Hv))) as [Hcomma Hbar].
  assert (snd (buildWhereExpression
                 (contextOf resourceType param
                    (Filter.mk code FhirOperator.EQUALS (system ++ "|" ++ value))))
          = Some (Disjunction
                    [Conjunction
                       [ Condition (mkColumn (getTableName resourceType) "system")
                           Operator.EQ (PText system) None;
                         exactCondition (getTableName resourceType)
                           (isCaseSensitiveSearchParameter param resourceType) value ]]))
    as Hexpr.
  { unfold buildWhereExpression, collectSubExpressions, contextOf.
    cbn [filter Filter.value]. rewrite Hcomma. cbn [fold_left].
    unfold buildWhereCondition. cbn [filter Filter.operator lookupTableName].
    rewrite Hbar.
    rewrite (truthy_nonempty Hvne).
    rewrite buildValueCondition_exact by reflexivity.
    cbn [lookupTableName caseSensitive]. rewrite Htrim.
    unfold Js.orUndefined. rewrite (truthy_nonempty Hsne). reflexivity. }
  rewrite buildWhere_shape, Hexpr.
  cbn [shouldTokenRowExist shouldCompareTokenValue Filter.operator Filter.code].
  eexists. split; [reflexivity|].
  rewrite (@selects_single db resourceType resourceTableName resourceId code values _
             Hne Hrows).
  apply existsb_ext_in. intros v _. f_equal.
  change (eval ?d ?s (Conjunction [?a; ?b]))
    with (truthAnd (eval d s a) (truthAnd (eval d s b) TTrue)).
  rewrite !isTrue_truthAnd, andb_true_r.
  now rewrite isTrue_eval_system, isTrue_eval_exact.
Qed.

(** For the operator EQUALS and a value without delimiter, the
    predicate selects exactly the resources that have a token row for the
    code whose value is the trimmed filter value, whatever its system; for a
    classification that is not case-sensitive also the rows whose value is
    the lower-cased trimmed filter value. *)
Lemma value_search_selects (db : Database)
    (resourceType resourceTableName resourceId : string)
    (param : SearchParameter.t) (code value : string) (values : list TokenValue.t) :
  resourceTableName <> getTableName resourceType ->
  tokenRows db resourceType = map rowOfValue values ->
  plain value = true ->
  exists predicate,
    snd (buildWhere resourceType resourceTableName param
           (Filter.mk code FhirOperator.EQUALS value))
    = inr predicate
    /\ selects db resourceTableName resourceId predicate
       = existsb
           (fun v =>
              tokenOf resourceId code v
              && valueMatches (isCaseSensitiveSearchParameter param resourceType)
                   (Js.trim value) v)
           values.
Proof.
  intros Hne Hrows Hv.
  rewrite buildWhere_shape. unfold contextOf.
  rewrite buildWhereExpression_exact by (try reflexivity; exact Hv).
  cbn [shouldTokenRowExist shouldCompareTokenValue Filter.operator snd
       Filter.code lookupTableName caseSensitive filter Filter.value].
  eexists. split; [reflexivity|].
  rewrite (@selects_single db resourceType resourceTableName resourceId code values _
             Hne Hrows).
  apply existsb_ext_in. intros v _. f_equal.
  apply isTrue_eval_exact.
Qed.

(** X13: for the operator EQUALS and a value without delimiter, the
    predicate selects exactly the resources that have a token row for the
    code whose value is the trimmed filter value, whatever its system; for a
    classification that is not case-sensitive also the rows whose value is
    the lower-cased trimmed filter value. *)
Theorem X13_value_search (db : Database)
    (resourceType resourceTableName resourceId : string)
    (param : SearchParameter.t) (code value : string) (values : list TokenValue.t) :
  resourceTableName <> getTableName resourceType ->
  tokenRows db resourceType = map rowOfValue values ->
  plain value = true ->
  exists predicate,
    snd (buildWhere resourceType resourceTableName param
           (Filter.mk code FhirOperator.EQUALS value))
    = inr predicate
    /\ selects db resourceTableName resourceId predicate
       = existsb
           (fun v =>
              tokenOf resourceId code v
              && valueMatches (isCaseSensitiveSearchParameter param resourceType)
                   (Js.trim value) v)
           values.
Proof. intros Hne Hrows Hv. now apply value_search_selects. Qed.

End CompilationFacts.

(** X11 at the patients' identifier NOT_EQUALS "X" on an empty database:
    the patient "p1", who has no token row, is selected. *)
Lemma X11_resource_without_tokens_witness :
  exists predicate,
    snd (@buildWhere Sample.registry Sample.backend "Patient" "Patient" Sample.identifierParam
           (Filter.mk "identifier" FhirOperator.NOT_EQUALS "X"))
    = inr predicate
    /\ @selects Sample.backend [] "Patient" "p1" predicate = negb false.
Proof.
  apply (@X11_resource_without_tokens Sample.registry Sample.backend [] "Patient" "Patient"
           "p1" Sample.identifierParam
           (Filter.mk "identifier" FhirOperator.NOT_EQUALS "X") [] false);
    [discriminate | reflexivity | reflexivity | reflexivity].
Defined.

(** X12 at the patients' identifier "http://example.org|123" on the
    database after indexing the patient "p1" with that identifier. *)
Lemma X12_system_and_value_search_witness :
  exists predicate,
    snd (@buildWhere Sample.registry Sample.backend "Patient" "Patient" Sample.identifierParam
           (Filter.mk "identifier" FhirOperator.EQUALS "http://example.org|123"))
    = inr predicate
    /\ @selects Sample.backend
         (execute
            (@indexResource Sample.registry
               (Sample.patient "p1" [Identifier.mk (Some "http://example.org") (Some "123")])
               true) [])
         "Patient" "p1" predicate
       = true.
Proof.
  destruct (@X12_system_and_value_search Sample.registry Sample.backend
              (execute
                 (@indexResource Sample.registry
                    (Sample.patient "p1"
                       [Identifier.mk (Some "http://example.org") (Some "123")])
                    true) [])
              "Patient" "Patient" "p1" Sample.identifierParam "identifier"
              "http://example.org" "123"
              [TokenValue.mk "p1" "identifier" (Some "http://example.org") (Some "123")])
    as [predicate [Hb Hsel]];
    try reflexivity; try discriminate.
  exists predicate. split; [exact Hb|]. rewrite Hsel. reflexivity.
Defined.

(** X13 at the patients' telecom, which is not case-sensitive: the value
    "Foo@Bar.com" finds the patient "p1" indexed with that telecom, stored
    as "foo@bar.com". *)
Lemma X13_value_search_witness :
  exists predicate,
    snd (@buildWhere Sample.registry Sample.backend "Patient" "Patient" Sample.telecomParam
           (Filter.mk "telecom" FhirOperator.EQUALS "Foo@Bar.com"))
    = inr predicate
    /\ @selects Sample.backend
         (execute
            (@indexResource Sample.registry
               (Resource.mk "Patient" "p1"
                  [("telecom",
                    [TVContactPoint (Some (ContactPoint.mk (Some "email") (Some "Foo@Bar.com")))])])
               true) [])
         "Patient" "p1" predicate
       = true.
Proof.
  destruct (@X13_value_search Sample.registry Sample.backend
              (execute
                 (@indexResource Sample.registry
                    (Resource.mk "Patient" "p1"
                       [("telecom",
                         [TVContactPoint
                            (Some (ContactPoint.mk (Some "email") (Some "Foo@Bar.com")))])])
                    true) [])
              "Patient" "Patient" "p1" Sample.telecomParam "telecom" "Foo@Bar.com"
              [TokenValue.mk "p1" "telecom" (Some "email") (Some "foo@bar.com")])
    as [predicate [Hb Hsel]];
    try reflexivity; try discriminate.
  exists predicate. split; [exact Hb|]. rewrite Hsel. reflexivity.
Defined.

(** ** Indexing, then searching *)

Section IndexThenSearch.

Context `{Registry} `{SqlBackend}.

(** Among the rows of the token table after an update, the rows of the
    resource for a code are those extracted from it. *)
Lemma existsb_after_update (resource : Resource.t) (old : list TokenValue.t) (code : string)
    (P : TokenValue.t -> bool) :
  existsb (fun v => tokenOf (Resource.id resource) code v && P v)
    (List.filter (ofOtherResource (Resource.id resource)) old ++ tokenValues resource)
  = existsb (fun v => String.eqb (TokenValue.code v) code && P v) (tokenValues resource).
Proof.
  rewrite existsb_app.
  assert (existsb (fun v => tokenOf (Resource.id resource) code v && P v)
            (List.filter (ofOtherResource (Resource.id resource)) old) = false) as Hold.
  { apply not_true_is_false. intros Hex.
    apply existsb_exists in Hex as [v [Hin Hv]].
    apply filter_In in Hin as [_ Hother].
    apply andb_true_iff in Hv as [Htok _].
    unfold tokenOf in Htok. apply andb_true_iff in Htok as [Hid _].
    unfold ofOtherResource in Hother. rewrite String.eqb_sym, Hid in Hother.
    discriminate. }
  rewrite Hold. simpl.
  apply existsb_ext_in. intros v Hin.
  unfold tokenValues in Hin. apply in_map_iff in Hin as [token [<- _]].
  unfold tokenOf; simpl. now rewrite String.eqb_refl.
Qed.

Lemma presence_selects (db : Database) (resourceType resourceTableName resourceId code : string)
    (values : list TokenValue.t) :
  resourceTableName <> getTableName resourceType ->
  tokenRows db resourceType = map rowOfValue values ->
  eval db [(resourceTableName, [("id", SqlText resourceId)])]
    (existsToken (getTableName resourceType) resourceTableName code [])
  = truthOfBool (existsb (tokenOf resourceId code) values).
Proof.
  intros Hne Hrows.
  rewrite (@eval_existsToken _ db resourceType resourceTableName resourceId code values []
             Hne Hrows).
  f_equal. apply existsb_ext_in. intros v _. simpl. apply andb_true_r.
Qed.

(** X14: searching after an update finds the resource by its own rows only:
    with the token table holding the rows of [old] before the update, the
    predicate compiled for EQUALS and a value without delimiter selects the
    updated resource exactly when one of the rows extracted from it has the
    code and matches the trimmed value; the rows stored for it before play no
    part. *)
Theorem X14_update_then_value_search (resource : Resource.t) (db : Database)
    (old : list TokenValue.t) (resourceTableName : string) (param : SearchParameter.t)
    (code value : string) :
  resourceTableName <> getTableName (Resource.resourceType resource) ->
  tokenRows db (Resource.resourceType resource) = map rowOfValue old ->
  plain value = true ->
  exists predicate,
    snd (buildWhere (Resource.resourceType resource) resourceTableName param
           (Filter.mk code FhirOperator.EQUALS value))
    = inr predicate
    /\ selects (execute (indexResource resource false) db) resourceTableName
         (Resource.id resource) predicate
       = existsb
           (fun v =>
              String.eqb (TokenValue.code v) code
              && valueMatches
                   (isCaseSensitiveSearchParameter param (Resource.resourceType resource))
                   (Js.trim value) v)
           (tokenValues resource).
Proof.
  intros Hne Hrows Hv.
  destruct (@value_search_selects _ _ (execute (indexResource resource false) db)
              (Resource.resourceType resource) resourceTableName (Resource.id resource)
              param code value _ Hne (tokenRows_after_update resource db old Hrows) Hv)
    as [predicate [Hb Hsel]].
  exists predicate. split; [exact Hb|].
  rewrite Hsel. apply existsb_after_update.
Qed.

(** X15: after an update, the predicate compiled for present=true selects
    the resource exactly when a token with the filter's code was extracted
    from it, and the predicate compiled for missing=true exactly when none
    was. *)
Theorem X15_update_then_presence_search (resource : Resource.t) (db : Database)
    (old : list TokenValue.t) (resourceTableName : string) (param : SearchParameter.t)
    (code : string) :
  resourceTableName <> getTableName (Resource.resourceType resource) ->
  tokenRows db (Resource.resourceType resource) = map rowOfValue old ->
  exists present missing,
    snd (buildWhere (Resource.resourceType resource) resourceTableName param
           (Filter.mk code FhirOperator.PRESENT "true"))
    = inr present
    /\ snd (buildWhere (Resource.resourceType resource) resourceTableName param
              (Filter.mk code FhirOperator.MISSING "true"))
       = inr missing
    /\ selects (execute (indexResource resource false) db) resourceTableName
         (Resource.id resource) present
       = existsb (fun token => String.eqb (Token.code token) code) (getTokens resource)
    /\ selects (execute (indexResource resource false) db) resourceTableName
         (Resource.id resource) missing
       = negb (existsb (fun token => String.eqb (Token.code token) code)
                 (getTokens resource)).
Proof.
  intros Hne Hrows.
  assert (existsb (tokenOf (Resource.id resource) code)
            (List.filter (ofOtherResource (Resource.id resource)) old ++ tokenValues resource)
          = existsb (fun token => String.eqb (Token.code token) code) (getTokens resource))
    as Hex.
  { rewrite <- (existsb_ext_in
                  (fun v => tokenOf (Resource.id resource) code v && true)
                  (tokenOf (Resource.id resource) code))
      by (intros v _; apply andb_true_r).
    rewrite existsb_after_update. unfold tokenValues. rewrite existsb_map.
    apply existsb_ext_in. intros token _. simpl. apply andb_true_r. }
  rewrite !buildWhere_shape. unfold contextOf.
  rewrite !buildWhereExpression_absent by (simpl; auto).
  cbn [shouldTokenRowExist shouldCompareTokenValue Filter.operator Filter.value
       Js.toLowerCase String.eqb snd Filter.code].
  do 2 eexists. split; [reflexivity|]. split; [reflexivity|].
  unfold selects.
  change (eval ?d ?s (Negation ?e)) with (truthNot (eval d s e)).
  rewrite (@presence_selects _ (Resource.resourceType resource) resourceTableName
             (Resource.id resource) code _ Hne (tokenRows_after_update resource db old Hrows)).
  rewrite isTrue_truthOfBool, isTrue_truthNot_bool, Hex. split; reflexivity.
Qed.

End IndexThenSearch.

(** X14 at the patient "p1", indexed before with the identifier value "old"
    and updated with the value "new": the value "new" finds the patient. *)
Lemma X14_update_then_value_search_witness :
  exists predicate,
    snd (@buildWhere Sample.registry Sample.backend "Patient" "Patient" Sample.identifierParam
           (Filter.mk "identifier" FhirOperator.EQUALS "new"))
    = inr predicate
    /\ @selects Sample.backend
         (execute
            (@indexResource Sample.registry
               (Sample.patient "p1" [Identifier.mk None (Some "new")]) false)
            (execute
               (@indexResource Sample.registry
                  (Sample.patient "p1" [Identifier.mk None (Some "old")]) true) []))
         "Patient" "p1" predicate
       = true.
Proof.
  destruct (@X14_update_then_value_search Sample.registry Sample.backend
              (Sample.patient "p1" [Identifier.mk None (Some "new")])
              (execute
                 (@indexResource Sample.registry
                    (Sample.patient "p1" [Identifier.mk None (Some "old")]) true) [])
              [TokenValue.mk "p1" "identifier" None (Some "old")]
              "Patient" Sample.identifierParam "identifier" "new")
    as [predicate [Hb Hsel]];
    try reflexivity; try discriminate.
  exists predicate. split; [exact Hb|].
  etransitivity; [exact Hsel | reflexivity].
Defined.

(** X15 at the patient "p1", indexed before with an identifier and updated
    without any: missing=true selects the patient. *)
Lemma X15_update_then_presence_search_witness :
  exists missing,
    snd (@buildWhere Sample.registry Sample.backend "Patient" "Patient" Sample.identifierParam
           (Filter.mk "identifier" FhirOperator.MISSING "true"))
    = inr missing
    /\ @selects Sample.backend
         (execute
            (@indexResource Sample.registry (Sample.patient "p1" []) false)
            (execute
               (@indexResource Sample.registry
                  (Sample.patient "p1" [Identifier.mk None (Some "old")]) true) []))
         "Patient" "p1" missing
       = true.
Proof.
  destruct (@X15_update_then_presence_search Sample.registry Sample.backend
              (Sample.patient "p1" [])
              (execute
                 (@indexResource Sample.registry
                    (Sample.patient "p1" [Identifier.mk None (Some "old")]) true) [])
              [TokenValue.mk "p1" "identifier" None (Some "old")]
              "Patient" Sample.identifierParam "identifier")
    as [present [missing [_ [Hm [_ Hsel]]]]];
    try reflexivity; try discriminate.
  exists missing. split; [exact Hm|].
  etransitivity; [exact Hsel | reflexivity].
Defined.

(** ** A system without value *)

Section SystemOnly.

Context `{Registry} `{SqlBackend}.

(** X21: for the operator EQUALS and a value [system|] that ends with the
    bar, the predicate tests the system alone: it selects exactly the
    resources that have a token row for the code with that system, whatever
    the value of the row and the classification of the parameter. *)
Theorem X21_system_only_search (db : Database)
    (resourceType resourceTableName resourceId : string)
    (param : SearchParameter.t) (code system : string) (values : list TokenValue.t) :
  resourceTableName <> getTableName resourceType ->
  tokenRows db resourceType = map rowOfValue values ->
  plain system = true -> system <> EmptyString ->
  exists predicate,
    snd (buildWhere resourceType resourceTableName param
           (Filter.mk code FhirOperator.EQUALS (system ++ "|")))
    = inr predicate
    /\ selects db resourceTableName resourceId predicate
       = existsb (fun v => tokenOf resourceId code v && systemIs system v) values.
Proof.
  intros Hne Hrows Hs Hsne.
  destruct (split_system_value system EmptyString Hs eq_refl) as [Hcomma Hbar].
  change ("|" ++ EmptyString)%string with "|" in Hcomma, Hbar.
  assert (snd (buildWhereExpression
                 (contextOf resourceType param
                    (Filter.mk code FhirOperator.EQUALS (system ++ "|"))))
          = Some (Disjunction
                    [Condition (mkColumn (getTableName resourceType) "system")
                       Operator.EQ (PText system) None]))
    as Hexpr.
  { unfold buildWhereExpression, collectSubExpressions, contextOf.
    cbn [filter Filter.value]. rewrite Hcomma. cbn [fold_left].
    unfold buildWhereCondition. cbn [filter Filter.operator lookupTableName].
    rewrite Hbar. cbn [Js.truthy].
    unfold Js.orUndefined. rewrite (truthy_nonempty Hsne). reflexivity. }
  rewrite buildWhere_shape, Hexpr.
  cbn [shouldTokenRowExist shouldCompareTokenValue Filter.operator Filter.code].
  eexists. split; [reflexivity|].
  rewrite (@selects_single _ db resourceType resourceTableName resourceId code values _
             Hne Hrows).
  apply existsb_ext_in. intros v _. f_equal.
  apply isTrue_eval_system.
Qed.

End SystemOnly.

(** X21 at the patients' identifier "http://example.org|" on the database
    after indexing the patient "p1" with an identifier of that system. *)
Lemma X21_system_only_search_witness :
  exists predicate,
    snd (@buildWhere Sample.registry Sample.backend "Patient" "Patient" Sample.identifierParam
           (Filter.mk "identifier" FhirOperator.EQUALS "http://example.org|"))
    = inr predicate
    /\ @selects Sample.backend
         (execute
            (@indexResource Sample.registry
               (Sample.patient "p1" [Identifier.mk (Some "http://example.org") (Some "123")])
               true) [])
         "Patient" "p1" predicate
       = true.
Proof.
  destruct (@X21_system_only_search Sample.registry Sample.backend
              (execute
                 (@indexResource Sample.registry
                    (Sample.patient "p1"
                       [Identifier.mk (Some "http://example.org") (Some "123")])
                    true) [])
              "Patient" "Patient" "p1" Sample.identifierParam "identifier"
              "http://example.org"
              [TokenValue.mk "p1" "identifier" (Some "http://example.org") (Some "123")])
    as [predicate [Hb Hsel]];
    try reflexivity; try discriminate.
  exists predicate. split; [exact Hb|].
  etransitivity; [exact Hsel | reflexivity].
Defined.

(** ** The log of expensive queries *)

Section LogFacts.

Context `{Registry} `{SqlBackend}.

Lemma buildValueCondition_warns (context : FilterContext) (value : string) :
  Forall (warnsAbout (searchParam context) (filter context))
    (fst (buildValueCondition context value)).
Proof.
  unfold buildValueCondition, logExpensiveQuery, warnsAbout.
  destruct (Filter.operator (filter context)) eqn:Eop.
  all: try (destruct (caseSensitive context); simpl; apply Forall_nil).
  all: simpl; apply Forall_cons; [|apply Forall_nil]; repeat split; simpl; auto.
Qed.

Lemma buildWhereCondition_warns (ctx : FilterContext) (query : string) :
  Forall (warnsAbout (searchParam ctx) (filter ctx))
    (fst (buildWhereCondition ctx query)).
Proof.
  unfold buildWhereCondition.
  pose proof (buildValueCondition_warns ctx query) as Hq.
  destruct (buildValueCondition ctx query) as [logq conditionq].
  destruct (splitN query "|" 2) as [|a [|b [|c l]]].
  - destruct (Filter.operator (filter ctx)); simpl; auto.
  - destruct (Filter.operator (filter ctx)); simpl; auto.
  - pose proof (buildValueCondition_warns ctx b) as Hb.
    destruct (buildValueCondition ctx b) as [logb conditionb].
    destruct (Js.truthy (Some b)); simpl; auto.
  - destruct (Filter.operator (filter ctx)); simpl; auto.
Qed.

Lemma collectSubExpressions_warns (context : FilterContext) (options : list string) :
  Forall (warnsAbout (searchParam context) (filter context))
    (fst (collectSubExpressions context options)).
Proof.
  unfold collectSubExpressions.
  assert (forall acc : list LogRecord * list Expression,
            Forall (warnsAbout (searchParam context) (filter context)) (fst acc) ->
            Forall (warnsAbout (searchParam context) (filter context))
              (fst (fold_left
                      (fun acc option =>
                         let (log, expression) := buildWhereCondition context option in
                         match expression with
                         | Some e => (fst acc ++ log, snd acc ++ [e])
                         | None => (fst acc ++ log, snd acc)
                         end)
                      options acc))) as Hgo.
  { induction options as [|o options IH]; cbn [fold_left]; intros acc Hacc; [exact Hacc|].
    apply IH.
    pose proof (buildWhereCondition_warns context o) as Ho.
    destruct (buildWhereCondition context o) as [log [e|]]; simpl in *;
      apply Forall_app; auto. }
  apply Hgo. constructor.
Qed.

Lemma buildWhere_log (resourceType resourceTableName : string) (param : SearchParameter.t)
    (searchFilter : Filter.t) :
  fst (buildWhere resourceType resourceTableName param searchFilter)
  = fst (collectSubExpressions (contextOf resourceType param searchFilter)
           (splitSearchOnComma (Filter.value searchFilter))).
Proof.
  unfold buildWhere, buildWhereExpression, contextOf. cbn [filter].
  destruct (collectSubExpressions _ _) as [log [|e subs]];
    destruct (shouldTokenRowExist searchFilter) as [error|[|]]; reflexivity.
Qed.

(** X16: [buildWhere] warns of an expensive query only for the operators
    TEXT and CONTAINS: every record it logs carries one of these two as the
    operator of the filter, with the code of the search parameter and the
    raw value of the filter; for every other operator nothing is logged,
    also when [buildWhere] throws. *)
Theorem X16_expensive_query_log (resourceType resourceTableName : string)
    (param : SearchParameter.t) (searchFilter : Filter.t) :
  Forall (warnsAbout param searchFilter)
    (fst (buildWhere resourceType resourceTableName param searchFilter))
  /\ (Filter.operator searchFilter <> FhirOperator.TEXT ->
      Filter.operator searchFilter <> FhirOperator.CONTAINS ->
      fst (buildWhere resourceType resourceTableName param searchFilter) = []).
Proof.
  assert (Forall (warnsAbout param searchFilter)
            (fst (buildWhere resourceType resourceTableName param searchFilter))) as Hlog.
  { rewrite buildWhere_log.
    apply (collectSubExpressions_warns (contextOf resourceType param searchFilter)). }
  split; [exact Hlog|].
  intros Ht Hc.
  destruct (fst (buildWhere resourceType resourceTableName param searchFilter))
    as [|record log]; [reflexivity|].
  apply Forall_inv in Hlog. destruct Hlog as [[Hop | Hop] [Heq _]]; congruence.
Qed.

End LogFacts.

(** X16 at the text search "diab,hyper" on the code of an Observation: one
    record for each of the two options; and at the equality search: none. *)
Lemma X16_expensive_query_log_witness :
  List.length
    (fst (@buildWhere Sample.registry Sample.backend "Observation" "Observation"
            Sample.codeParam (Filter.mk "code" FhirOperator.TEXT "diab,hyper")))
  = 2
  /\ fst (@buildWhere Sample.registry Sample.backend "Observation" "Observation"
            Sample.codeParam (Filter.mk "code" FhirOperator.EQUALS "diab,hyper"))
     = [].
Proof.
  split; [reflexivity|].
  apply (proj2 (@X16_expensive_query_log Sample.registry Sample.backend
                  "Observation" "Observation" Sample.codeParam
                  (Filter.mk "code" FhirOperator.EQUALS "diab,hyper")));
    discriminate.
Defined.

(** ** Classification by element types *)

Lemma typeCodeIs_true (name : string) (ty : ElementDefinitionType.t) :
  typeCodeIs name ty = true <-> ElementDefinitionType.code ty = Some name.
Proof.
  unfold typeCodeIs. split.
  - apply strictEq_true.
  - intros ->. apply strictEq_refl.
Qed.

Lemma anyElementType_true (p : ElementDefinitionType.t -> bool)
    (defs : list ElementDefinition.t) :
  anyElementType p defs = true
  <-> exists elementDefinition types ty,
        In elementDefinition defs
        /\ ElementDefinition.type elementDefinition = Some types
        /\ In ty types
        /\ p ty = true.
Proof.
  unfold anyElementType. rewrite existsb_exists. split.
  - intros [ed [Hin Hex]].
    destruct (ElementDefinition.type ed) as [types|] eqn:Et; [|discriminate].
    apply existsb_exists in Hex as [ty [Hty Hp]].
    exists ed, types, ty. auto.
  - intros [ed [types [ty [Hin [Et [Hty Hp]]]]]].
    exists ed. split; [exact Hin|]. rewrite Et.
    apply existsb_exists. now exists ty.
Qed.

Lemma anyElementType_lists (name : string) (defs : list ElementDefinition.t) :
  anyElementType (typeCodeIs name) defs = true <-> listsElementType name defs.
Proof.
  rewrite anyElementType_true. unfold listsElementType.
  split; intros [ed [types [ty [Hin [Et [Hty Hp]]]]]];
    exists ed, types, ty; repeat split; auto; now apply typeCodeIs_true.
Qed.

(** X17: for a search parameter of type token whose code does not end with
    ":identifier", the classification follows the element types that the
    registry lists: not case-sensitive as soon as one of them is
    ContactPoint, also next to Identifier, CodeableConcept or Coding and
    whatever the order; case-sensitive when none is ContactPoint and one is
    Identifier, CodeableConcept or Coding; not indexed when none of the four
    is listed. *)
Theorem X17_classification_by_element_types `{Registry}
    (searchParam : SearchParameter.t) (resourceType : string)
    (defs : list ElementDefinition.t) :
  SearchParameter.type searchParam = "token" ->
  Js.endsWith (SearchParameter.code searchParam) ":identifier" = false ->
  SearchParameterDetails.elementDefinitions
    (getSearchParameterDetails resourceType searchParam) = Some defs ->
  (listsElementType PropertyType.ContactPoint defs ->
   getTokenIndexType searchParam resourceType = Some CASE_INSENSITIVE)
  /\ (~ listsElementType PropertyType.ContactPoint defs ->
      listsElementType PropertyType.Identifier defs
      \/ listsElementType PropertyType.CodeableConcept defs
      \/ listsElementType PropertyType.Coding defs ->
      getTokenIndexType searchParam resourceType = Some CASE_SENSITIVE)
  /\ (~ listsElementType PropertyType.ContactPoint defs ->
      ~ listsElementType PropertyType.Identifier defs ->
      ~ listsElementType PropertyType.CodeableConcept defs ->
      ~ listsElementType PropertyType.Coding defs ->
      getTokenIndexType searchParam resourceType = None
      /\ isIndexed searchParam resourceType = false).
Proof.
  intros Ht He Hd.
  assert (forall defs' : list ElementDefinition.t,
            anyElementType
              (fun ty =>
                 typeCodeIs PropertyType.Identifier ty
                 || typeCodeIs PropertyType.CodeableConcept ty
                 || typeCodeIs PropertyType.Coding ty) defs' = true
            <-> (listsElementType PropertyType.Identifier defs'
                 \/ listsElementType PropertyType.CodeableConcept defs'
                 \/ listsElementType PropertyType.Coding defs')) as Hother.
  { intros defs'. rewrite anyElementType_true. split.
    - intros [ed [types [ty [Hin [Et [Hty Hp]]]]]].
      apply orb_true_iff in Hp as [Hp | Hp]; [apply orb_true_iff in Hp as [Hp | Hp]|];
        apply typeCodeIs_true in Hp;
        [left | right; left | right; right]; exists ed, types, ty; auto.
    - intros [Hl | [Hl | Hl]]; destruct Hl as [ed [types [ty [Hin [Et [Hty Hc]]]]]];
        exists ed, types, ty; repeat split; auto;
        apply typeCodeIs_true in Hc; rewrite Hc, ?orb_true_r; reflexivity. }
  unfold isIndexed, getTokenIndexType. rewrite Ht, He, Hd. cbn [String.eqb negb].
  change (String.eqb "token" "token") with true. cbn [negb].
  split; [|split].
  - intros Hc. apply anyElementType_lists in Hc.
    destruct defs as [|d defs']; [discriminate Hc|]. now rewrite Hc.
  - intros Hnc Ho.
    assert (anyElementType (typeCodeIs PropertyType.ContactPoint) defs = false) as Hcf.
    { apply not_true_is_false. intros Hc. apply Hnc. now apply anyElementType_lists. }
    apply Hother in Ho.
    destruct defs as [|d defs']; [discriminate Ho|]. now rewrite Hcf, Ho.
  - intros Hnc Hni Hncc Hnco.
    assert (anyElementType (typeCodeIs PropertyType.ContactPoint) defs = false) as Hcf.
    { apply not_true_is_false. intros Hc. apply Hnc. now apply anyElementType_lists. }
    assert (anyElementType
              (fun ty =>
                 typeCodeIs PropertyType.Identifier ty
                 || typeCodeIs PropertyType.CodeableConcept ty
                 || typeCodeIs PropertyType.Coding ty) defs = false) as Hof.
    { apply not_true_is_false. intros Ho. apply Hother in Ho. tauto. }
    destruct defs as [|d defs']; [now split|]. now rewrite Hcf, Hof.
Qed.

(** X17 at a parameter whose element types are Identifier and then
    ContactPoint: it is classified as not case-sensitive. *)
Lemma X17_classification_by_element_types_witness :
  @getTokenIndexType SampleMixed.registry SampleMixed.contactParam "Patient"
  = Some CASE_INSENSITIVE.
Proof.
  apply (proj1 (@X17_classification_by_element_types SampleMixed.registry
                  SampleMixed.contactParam "Patient" SampleMixed.mixedDefinitions
                  eq_refl eq_refl eq_refl)).
  exists (ElementDefinition.mk (Some [ElementDefinitionType.mk (Some PropertyType.ContactPoint)])),
         [ElementDefinitionType.mk (Some PropertyType.ContactPoint)],
         (ElementDefinitionType.mk (Some PropertyType.ContactPoint)).
  repeat split; simpl; auto.
Defined.

(** * Properties of the rendering of a questionnaire item *)

Lemma findExtension_some (url : string) (extensions : list Extension.t) (e : Extension.t) :
  findExtension url extensions = Some e ->
  In e extensions /\ Extension.url e = Some url.
Proof.
  unfold findExtension. intros Hf. apply find_some in Hf as [Hin Hu].
  split; [exact Hin | now apply strictEq_true].
Qed.

Lemma findExtension_first (url : string) (before after : list Extension.t) (e : Extension.t) :
  (forall x, In x before -> Extension.url x <> Some url) ->
  Extension.url e = Some url ->
  findExtension url (before ++ e :: after) = Some e.
Proof.
  unfold findExtension. intros Hb He.
  induction before as [|x before IH]; simpl.
  - now rewrite He, strictEq_refl.
  - destruct (Js.strictEq (Extension.url x) (Some url)) eqn:Ex.
    + apply strictEq_true in Ex. exfalso. apply (Hb x); simpl; auto.
    + apply IH. intros y Hy. apply Hb. simpl; auto.
Qed.

Lemma valueStringOr_none (ext : option Extension.t) (text : string) :
  valueStringOr None ext = Some text ->
  text <> EmptyString
  /\ exists e, ext = Some e /\ Extension.valueString e = Some text.
Proof.
  unfold valueStringOr. destruct ext as [e|]; [|discriminate].
  destruct (Js.truthy (Extension.valueString e)) eqn:Et; [|discriminate].
  intros Hv. apply truthy_Some in Et as [s [Es Hne]].
  rewrite Es in Hv. injection Hv as <-.
  split; [exact Hne|]. now exists e.
Qed.

(** X18: what [getQuestionnaireItemRendering] returns comes from the
    extensions and from nowhere else: an xhtml (a style) is never the empty
    string and is the valueString of an extension of the item's [_text] with
    the rendering-xhtml (rendering-style) url; styleSensitive is true only
    when an extension of the item itself with the rendering-styleSensitive
    url has the valueBoolean true. *)
Theorem X18_rendering_comes_from_extensions (item : QuestionnaireItem.t) :
  let rendering := getQuestionnaireItemRendering item in
  (forall xhtml, Rendering.xhtml rendering = Some xhtml ->
     xhtml <> EmptyString
     /\ exists element extensions e,
          QuestionnaireItem._text item = Some element
          /\ TextElement.extension element = Some extensions
          /\ In e extensions
          /\ Extension.url e = Some renderingXhtmlUrl
          /\ Extension.valueString e = Some xhtml)
  /\ (forall style, Rendering.style rendering = Some style ->
        style <> EmptyString
        /\ exists element extensions e,
             QuestionnaireItem._text item = Some element
             /\ TextElement.extension element = Some extensions
             /\ In e extensions
             /\ Extension.url e = Some renderingStyleUrl
             /\ Extension.valueString e = Some style)
  /\ (Rendering.styleSensitive rendering = true ->
      exists extensions e,
        QuestionnaireItem.extension item = Some extensions
        /\ In e extensions
        /\ Extension.url e = Some renderingStyleSensitiveUrl
        /\ Extension.valueBoolean e = Some true).
Proof.
  intros rendering. subst rendering. unfold getQuestionnaireItemRendering.
  assert (forall url extensions text,
            valueStringOr None (findExtension url extensions) = Some text ->
            text <> EmptyString
            /\ exists e, In e extensions /\ Extension.url e = Some url
                         /\ Extension.valueString e = Some text) as Hvalue.
  { intros url extensions text Hv.
    apply valueStringOr_none in Hv as [Hne [e [Hf Hs]]].
    apply findExtension_some in Hf as [Hin Hu].
    split; [exact Hne|]. now exists e. }
  split; [|split].
  - intros xhtml.
    destruct (QuestionnaireItem._text item) as [element|] eqn:Etext; [|discriminate].
    destruct (TextElement.extension element) as [extensions|] eqn:Eext; [|discriminate].
    cbn [Rendering.xhtml]. intros Hx.
    apply Hvalue in Hx as [Hne [e [Hin [Hu Hs]]]].
    split; [exact Hne|]. exists element, extensions, e. repeat split; auto.
  - intros style.
    destruct (QuestionnaireItem._text item) as [element|] eqn:Etext; [|discriminate].
    destruct (TextElement.extension element) as [extensions|] eqn:Eext; [|discriminate].
    cbn [Rendering.style]. intros Hx.
    apply Hvalue in Hx as [Hne [e [Hin [Hu Hs]]]].
    split; [exact Hne|]. exists element, extensions, e. repeat split; auto.
  - intros Hs.
    assert (match
              match QuestionnaireItem.extension item with
              | Some extensions => findExtension renderingStyleSensitiveUrl extensions
              | None => None
              end
            with
            | Some e => match Extension.valueBoolean e with Some true => true | _ => false end
            | None => false
            end = true) as Hs'.
    { destruct (QuestionnaireItem._text item) as [element|]; [|exact Hs].
      destruct (TextElement.extension element); exact Hs. }
    destruct (QuestionnaireItem.extension item) as [extensions|] eqn:Eext; [|discriminate].
    destruct (findExtension renderingStyleSensitiveUrl extensions) as [e|] eqn:Hf;
      [|discriminate].
    apply findExtension_some in Hf as [Hin Hu].
    destruct (Extension.valueBoolean e) as [[|]|] eqn:Hb; try discriminate.
    exists extensions, e. repeat split; auto.
Qed.

(** X19: only the first extension with a url counts: when the first
    extension of the item with the rendering-styleSensitive url does not
    have the valueBoolean true, styleSensitive is false whatever the later
    extensions say; and when the first extension of [_text] with the
    rendering-xhtml url has no valueString or an empty one, there is no
    xhtml. *)
Theorem X19_first_extension_wins (item : QuestionnaireItem.t)
    (before after : list Extension.t) (e : Extension.t) :
  (QuestionnaireItem.extension item = Some (before ++ e :: after) ->
   (forall x, In x before -> Extension.url x <> Some renderingStyleSensitiveUrl) ->
   Extension.url e = Some renderingStyleSensitiveUrl ->
   Extension.valueBoolean e <> Some true ->
   Rendering.styleSensitive (getQuestionnaireItemRendering item) = false)
  /\ (forall element,
        QuestionnaireItem._text item = Some element ->
        TextElement.extension element = Some (before ++ e :: after) ->
        (forall x, In x before -> Extension.url x <> Some renderingXhtmlUrl) ->
        Extension.url e = Some renderingXhtmlUrl ->
        Js.truthy (Extension.valueString e) = false ->
        Rendering.xhtml (getQuestionnaireItemRendering item) = None).
Proof.
  split.
  - intros Hext Hbefore Hurl Hvalue.
    unfold getQuestionnaireItemRendering.
    rewrite Hext, (@findExtension_first _ before after e Hbefore Hurl).
    assert (match Extension.valueBoolean e with Some true => true | _ => false end = false)
      as Hfalse.
    { destruct (Extension.valueBoolean e) as [[|]|]; congruence. }
    rewrite Hfalse.
    destruct (QuestionnaireItem._text item) as [element|]; [|reflexivity].
    destruct (TextElement.extension element); reflexivity.
  - intros element Ht Hext Hbefore Hurl Hvalue.
    unfold getQuestionnaireItemRendering.
    rewrite Ht, Hext, (@findExtension_first _ before after e Hbefore Hurl).
    cbn [Rendering.xhtml valueStringOr]. now rewrite Hvalue.
Qed.

(** X19 at an item whose extensions are rendering-styleSensitive false and
    then rendering-styleSensitive true. *)
Lemma X19_first_extension_wins_witness :
  Rendering.styleSensitive
    (getQuestionnaireItemRendering
       (QuestionnaireItem.mk (Some "q1") (Some "Question") 
          (Some [ Extension.mk (Some renderingStyleSensitiveUrl) (Some false) None;
                  Extension.mk (Some renderingStyleSensitiveUrl) (Some true) None ])
          None))
  = false.
Proof.
  apply (proj1 (X19_first_extension_wins
                  (QuestionnaireItem.mk (Some "q1") (Some "Question") 
                     (Some [ Extension.mk (Some renderingStyleSensitiveUrl) (Some false) None;
                             Extension.mk (Some renderingStyleSensitiveUrl) (Some true) None ])
                     None)
                  []
                  [Extension.mk (Some renderingStyleSensitiveUrl) (Some true) None]
                  (Extension.mk (Some renderingStyleSensitiveUrl) (Some false) None)));
    [reflexivity | intros x [] | reflexivity | discriminate].
Defined.

(** X20: the element built by [QuestionnaireItemDisplay] never has both raw
    HTML and children; it is a div exactly when it has raw HTML, and a p
    otherwise; the raw HTML is never the empty string and is the xhtml of
    the rendering; the children are then the item's text; a style is applied
    only to an item that is style-sensitive; the key is the item's linkId. *)
Theorem X20_display_element (item : QuestionnaireItem.t) :
  let element := QuestionnaireItemDisplay item in
  let rendering := getQuestionnaireItemRendering item in
  (DisplayElement.dangerouslySetInnerHTML element = None
   \/ DisplayElement.children element = None)
  /\ (DisplayElement.dangerouslySetInnerHTML element <> None
      -> DisplayElement.component element = "div"
         /\ DisplayElement.dangerouslySetInnerHTML element = Rendering.xhtml rendering
         /\ DisplayElement.dangerouslySetInnerHTML element <> Some EmptyString)
  /\ (DisplayElement.dangerouslySetInnerHTML element = None
      -> DisplayElement.component element = "p"
         /\ DisplayElement.children element = QuestionnaireItem.text item)
  /\ (DisplayElement.styleCssText element <> None
      -> Rendering.styleSensitive rendering = true
         /\ DisplayElement.styleCssText element = Rendering.style rendering)
  /\ DisplayElement.key element = QuestionnaireItem.linkId item.
Proof.
  intros element rendering. subst element. unfold QuestionnaireItemDisplay.
  fold rendering. cbn [DisplayElement.dangerouslySetInnerHTML DisplayElement.children
                       DisplayElement.component DisplayElement.styleCssText
                       DisplayElement.key].
  assert ((if Js.truthy (Rendering.style rendering) && Rendering.styleSensitive rendering
           then Rendering.style rendering else None) <> None ->
          Rendering.styleSensitive rendering = true
          /\ (if Js.truthy (Rendering.style rendering) && Rendering.styleSensitive rendering
              then Rendering.style rendering else None) = Rendering.style rendering)
    as Hstyle.
  { destruct (Js.truthy (Rendering.style rendering) && Rendering.styleSensitive rendering)
      eqn:E.
    - apply andb_true_iff in E as [_ E]. intros _. split; [exact E | reflexivity].
    - intros Hn. exfalso. now apply Hn. }
  destruct (Rendering.xhtml rendering) as [[|c rest]|] eqn:Ex; cbn [Js.truthy].
  - split; [now left|]. split; [intros Hn; exfalso; now apply Hn|].
    split; [intros _; now split|]. split; [exact Hstyle | reflexivity].
  - split; [now right|]. split; [intros _; repeat split; discriminate|].
    split; [discriminate|]. split; [exact Hstyle | reflexivity].
  - split; [now left|]. split; [intros Hn; exfalso; now apply Hn|].
    split; [intros _; now split|]. split; [exact Hstyle | reflexivity].
Qed.

(** * C10: parameters whose code ends with ":identifier" *)





Section IdentifierSuffix.

Context `{Registry} `{SqlBackend}.






End IdentifierSuffix.


